(** * The preferences dialog of the sound switcher indicator

    A shallow embedding of [lib/indicator_sound_switcher/prefs.py].

    The Python objects of the dialog (the two notebook pages, their
    widgets, the notebook) and the indicator they all share are the fields
    of one record, [World]; every method is a function [World -> World]
    that updates the fields the method assigns.  What the dialog does to
    its collaborators is recorded, in order, in [calls].

    [logging.debug] lines write to the process log only and are left out. *)

From stdpp Require Import base strings list gmap.

Local Open Scope string_scope.
Local Open Scope list_scope.

(** ** External collaborators *)

Module Port.
(** Modelled from the spec: a port of the externally-owned device model
    ([card.ports] values).  Only the two attributes the dialog reads
    are kept. *)
Record t := { name : string; display_name : string }.
End Port.

Module Card.
(** Modelled from the spec: an entry of [indicator.cards].  [ports] is
    a dict; the association list keeps its iteration order. *)
Record t := {
  name : string;
  display_name : string;
  ports : list (string * Port.t)
}.
End Card.

(** Functions the file calls and does not define: gettext's [_], and the
    [get_display_name()] methods of cards and ports. *)
Class Collaborators := {
  gettext : string → string;
  Card_get_display_name : Card.t → string;
  Port_get_display_name : Port.t → string
}.

(** Modelled from the spec: [indicator.config] is a key-value settings
    object; [config[key, default]] gives the stored value, or [default]
    when the key is unset, and [config[key] = value] stores.  The dialog
    keeps booleans in it. *)
Record Indicator := {
  config : gmap string bool;
  cards : list (Z * Card.t)
}.

(** The notebook pages: the two subclasses of [BasePage]. *)
Inductive page_id := General | Devices.

(** What the dialog asks of the indicator (config reads, config writes,
    [on_refresh]), and each entry into a page's [initialise()].  Reads
    of the cards and ports, [get_display_name()] among them, change
    nothing and are not logged. *)
Inductive call :=
| Initialise (page : page_id)
| ConfigGet (key : string) (default : bool)
| ConfigSet (key : string) (value : bool)
| OnRefresh.

#[global] Instance page_id_eq_dec : EqDecision page_id.
Proof. solve_decision. Defined.

#[global] Instance call_eq_dec : EqDecision call.
Proof. solve_decision. Defined.

(** ** The part of the toolkit the dialog relies on *)

Module Gtk.
Inductive style := Plain | Bold | Mnemonic.

Record Label := { label : string; markup : style }.

(** A widget of which only the visibility flag matters here. *)
Record Widget := { visible : bool }.

Definition show (_ : Widget) : Widget := {| visible := true |}.
Definition hide (_ : Widget) : Widget := {| visible := false |}.

(** [Gtk.Switch()] starts inactive. *)
Record Switch := { active : bool }.

Record Entry := { text : string }.

(** What a row shows, in the order it was attached or packed; layout
    coordinates are left out. *)
Inductive Shown := Image (icon_name : string) | Text (lbl : Label).

(** A list box row: the child it was built with, the attribute the
    dialog hangs on it ([row.card], [row.port]), and whether it is the
    selected one. *)
Record ListBoxRow (A : Type) := {
  child : list Shown;
  data : A;
  selected : bool
}.
Arguments child {A} _.
Arguments data {A} _.
Arguments selected {A} _.

Definition ListBox (A : Type) := list (ListBoxRow A).

Definition get_children {A} (box : ListBox A) : list (ListBoxRow A) := box.

Definition get_selected_row {A} (box : ListBox A) : option (ListBoxRow A) :=
  find (λ row, selected row) box.

Definition add {A} (row : ListBoxRow A) (box : ListBox A) : ListBox A :=
  box ++ [row].

(** The user picks row [i], or clears the selection; a click on a row
    that does not exist selects nothing new. *)
Definition select {A} (sel : option nat) (box : ListBox A) : ListBox A :=
  match sel with
  | None => (λ row, {| child := child row; data := data row; selected := false |}) <$> box
  | Some i =>
      match box !! i with
      | None => box
      | Some _ =>
          imap (λ j row, {| child := child row; data := data row;
                            selected := bool_decide (j = i) |}) box
      end
  end.
End Gtk.

Module utils.
(** Modelled from the spec: [utils.lbl_bold] is defined in another file
    of the repository; it is taken to build a label that shows its
    argument in bold. *)
Definition lbl_bold (text : string) : Gtk.Label :=
  {| Gtk.label := text; Gtk.markup := Gtk.Bold |}.
End utils.

(** ** The objects of the dialog *)

(** Attributes set by [BasePage.__init__]; [shown] is the visibility of
    the page and of the children that have no flag of their own. *)
Record BasePage := {
  is_initialised : bool;
  title : string;
  shown : bool
}.

Record GeneralPage := {
  general_base : BasePage;
  switch_inputs : Gtk.Switch;
  switch_outputs : Gtk.Switch
}.

Record DevicesPage := {
  devices_base : BasePage;
  listbox_devices : Gtk.ListBox Card.t;
  lbl_dev_props_placeholder : Gtk.Widget;
  box_dev_props : Gtk.Widget;
  entry_dev_name : Gtk.Entry;
  listbox_ports : Gtk.ListBox Port.t;
  lbl_port_props_placeholder : Gtk.Widget;
  box_port_props : Gtk.Widget;
  switch_port_visible : Gtk.Switch;
  entry_port_name : Gtk.Entry;
  switch_port_always_avail : Gtk.Switch;
  cbox_port_pref_profile : option nat
}.

(** [tabs]: the pages in the order they were appended, each with its tab
    label.  [current_page] is [None] until the toolkit delivers the first
    'switch-page'. *)
Record MainNotebook := {
  tabs : list (page_id * Gtk.Label);
  current_page : option nat
}.

Record World := {
  indicator : Indicator;
  calls : list call;
  general : GeneralPage;
  devices : DevicesPage;
  notebook : MainNotebook
}.

(** Field updates. *)
Definition with_indicator (f : Indicator → Indicator) (w : World) : World :=
  {| indicator := f (indicator w); calls := calls w; general := general w;
     devices := devices w; notebook := notebook w |}.

Definition with_calls (f : list call → list call) (w : World) : World :=
  {| indicator := indicator w; calls := f (calls w); general := general w;
     devices := devices w; notebook := notebook w |}.

Definition with_general (f : GeneralPage → GeneralPage) (w : World) : World :=
  {| indicator := indicator w; calls := calls w; general := f (general w);
     devices := devices w; notebook := notebook w |}.

Definition with_devices (f : DevicesPage → DevicesPage) (w : World) : World :=
  {| indicator := indicator w; calls := calls w; general := general w;
     devices := f (devices w); notebook := notebook w |}.

Definition with_notebook (f : MainNotebook → MainNotebook) (w : World) : World :=
  {| indicator := indicator w; calls := calls w; general := general w;
     devices := devices w; notebook := f (notebook w) |}.

Definition record (c : call) : World → World := with_calls (λ l, l ++ [c]).

(** [self.indicator.config[key, default]] *)
Definition config_getitem (key : string) (dflt : bool) (w : World) : bool * World :=
  (default dflt (config (indicator w) !! key), record (ConfigGet key dflt) w).

(** [self.indicator.config[key] = value] *)
Definition config_setitem (key : string) (value : bool) (w : World) : World :=
  record (ConfigSet key value)
    (with_indicator (λ i, {| config := <[key := value]> (config i); cards := cards i |}) w).

(** [self.indicator.on_refresh()]: the body belongs to the indicator; the
    call is recorded. *)
Definition on_refresh (w : World) : World := record OnRefresh w.

Definition set_is_initialised (b : bool) (p : BasePage) : BasePage :=
  {| is_initialised := b; title := title p; shown := shown p |}.

Definition set_shown (b : bool) (p : BasePage) : BasePage :=
  {| is_initialised := is_initialised p; title := title p; shown := b |}.

(** ** BasePage *)

Module BasePage.
Definition __init__ (title : string) : BasePage :=
  {| is_initialised := false; title := title; shown := false |}.

(** Create and return a widget for the page label. *)
Definition get_label_widget (self : BasePage) : Gtk.Label :=
  {| Gtk.label := title self; Gtk.markup := Gtk.Mnemonic |}.

(** Is called whenever the page is activated.  A subclass supplies
    where its [BasePage] attributes live in the world ([base],
    [with_base]) and its [initialise]. *)
Definition on_activate
    (base : World → BasePage) (with_base : (BasePage → BasePage) → World → World)
    (initialise : World → World) (w : World) : World :=
  if negb (is_initialised (base w)) then
    let w := initialise w in
    with_base (set_is_initialised true) w
  else w.
End BasePage.

(** ** GeneralPage *)

Module GeneralPage.
Definition with_base (f : BasePage → BasePage) (g : GeneralPage) : GeneralPage :=
  {| general_base := f (general_base g); switch_inputs := switch_inputs g;
     switch_outputs := switch_outputs g |}.

Definition with_switch_inputs (f : Gtk.Switch → Gtk.Switch) (g : GeneralPage) : GeneralPage :=
  {| general_base := general_base g; switch_inputs := f (switch_inputs g);
     switch_outputs := switch_outputs g |}.

Definition with_switch_outputs (f : Gtk.Switch → Gtk.Switch) (g : GeneralPage) : GeneralPage :=
  {| general_base := general_base g; switch_inputs := switch_inputs g;
     switch_outputs := f (switch_outputs g) |}.

Definition __init__ `{!Collaborators} : GeneralPage :=
  {| general_base := BasePage.__init__ (gettext "_General");
     switch_inputs := {| Gtk.active := false |};
     switch_outputs := {| Gtk.active := false |} |}.

(** Signal handler: Show Inputs switch set. *)
Definition on_switch_inputs_set (widget : Gtk.Switch) (w : World) : World :=
  if negb (is_initialised (general_base (general w))) then w
  else on_refresh (config_setitem "show_inputs" (Gtk.active widget) w).

(** Signal handler: Show Outputs switch set. *)
Definition on_switch_outputs_set (widget : Gtk.Switch) (w : World) : World :=
  if negb (is_initialised (general_base (general w))) then w
  else on_refresh (config_setitem "show_outputs" (Gtk.active widget) w).

(** [self.switch_inputs.set_active(is_active)]: when the state changes,
    the toolkit emits 'state-set', which [__init__] connected to
    [on_switch_inputs_set]. *)
Definition switch_inputs_set_active (is_active : bool) (w : World) : World :=
  if bool_decide (Gtk.active (switch_inputs (general w)) = is_active) then w
  else
    let w := with_general (with_switch_inputs (λ _, {| Gtk.active := is_active |})) w in
    on_switch_inputs_set (switch_inputs (general w)) w.

(** [self.switch_outputs.set_active(is_active)], connected to
    [on_switch_outputs_set]. *)
Definition switch_outputs_set_active (is_active : bool) (w : World) : World :=
  if bool_decide (Gtk.active (switch_outputs (general w)) = is_active) then w
  else
    let w := with_general (with_switch_outputs (λ _, {| Gtk.active := is_active |})) w in
    on_switch_outputs_set (switch_outputs (general w)) w.

Definition show_all (w : World) : World :=
  with_general (with_base (set_shown true)) w.

Definition initialise (w : World) : World :=
  let w := record (Initialise General) w in
  let '(v, w) := config_getitem "show_inputs" true w in
  let w := switch_inputs_set_active v w in
  let '(v, w) := config_getitem "show_outputs" true w in
  let w := switch_outputs_set_active v w in
  show_all w.

Definition on_activate : World → World :=
  BasePage.on_activate (λ w, general_base (general w))
    (λ f, with_general (with_base f)) initialise.
End GeneralPage.

(** ** DevicesPage *)

Module DevicesPage.
Section fields.
Context (d : DevicesPage).

Definition with_base (f : BasePage → BasePage) : DevicesPage :=
  {| devices_base := f (devices_base d);
     listbox_devices := listbox_devices d;
     lbl_dev_props_placeholder := lbl_dev_props_placeholder d;
     box_dev_props := box_dev_props d;
     entry_dev_name := entry_dev_name d;
     listbox_ports := listbox_ports d;
     lbl_port_props_placeholder := lbl_port_props_placeholder d;
     box_port_props := box_port_props d;
     switch_port_visible := switch_port_visible d;
     entry_port_name := entry_port_name d;
     switch_port_always_avail := switch_port_always_avail d;
     cbox_port_pref_profile := cbox_port_pref_profile d |}.

Definition with_listbox_devices (f : Gtk.ListBox Card.t → Gtk.ListBox Card.t) : DevicesPage :=
  {| devices_base := devices_base d;
     listbox_devices := f (listbox_devices d);
     lbl_dev_props_placeholder := lbl_dev_props_placeholder d;
     box_dev_props := box_dev_props d;
     entry_dev_name := entry_dev_name d;
     listbox_ports := listbox_ports d;
     lbl_port_props_placeholder := lbl_port_props_placeholder d;
     box_port_props := box_port_props d;
     switch_port_visible := switch_port_visible d;
     entry_port_name := entry_port_name d;
     switch_port_always_avail := switch_port_always_avail d;
     cbox_port_pref_profile := cbox_port_pref_profile d |}.

Definition with_dev_props (placeholder box : Gtk.Widget → Gtk.Widget) : DevicesPage :=
  {| devices_base := devices_base d;
     listbox_devices := listbox_devices d;
     lbl_dev_props_placeholder := placeholder (lbl_dev_props_placeholder d);
     box_dev_props := box (box_dev_props d);
     entry_dev_name := entry_dev_name d;
     listbox_ports := listbox_ports d;
     lbl_port_props_placeholder := lbl_port_props_placeholder d;
     box_port_props := box_port_props d;
     switch_port_visible := switch_port_visible d;
     entry_port_name := entry_port_name d;
     switch_port_always_avail := switch_port_always_avail d;
     cbox_port_pref_profile := cbox_port_pref_profile d |}.

Definition with_entry_dev_name (f : Gtk.Entry → Gtk.Entry) : DevicesPage :=
  {| devices_base := devices_base d;
     listbox_devices := listbox_devices d;
     lbl_dev_props_placeholder := lbl_dev_props_placeholder d;
     box_dev_props := box_dev_props d;
     entry_dev_name := f (entry_dev_name d);
     listbox_ports := listbox_ports d;
     lbl_port_props_placeholder := lbl_port_props_placeholder d;
     box_port_props := box_port_props d;
     switch_port_visible := switch_port_visible d;
     entry_port_name := entry_port_name d;
     switch_port_always_avail := switch_port_always_avail d;
     cbox_port_pref_profile := cbox_port_pref_profile d |}.

Definition with_listbox_ports (f : Gtk.ListBox Port.t → Gtk.ListBox Port.t) : DevicesPage :=
  {| devices_base := devices_base d;
     listbox_devices := listbox_devices d;
     lbl_dev_props_placeholder := lbl_dev_props_placeholder d;
     box_dev_props := box_dev_props d;
     entry_dev_name := entry_dev_name d;
     listbox_ports := f (listbox_ports d);
     lbl_port_props_placeholder := lbl_port_props_placeholder d;
     box_port_props := box_port_props d;
     switch_port_visible := switch_port_visible d;
     entry_port_name := entry_port_name d;
     switch_port_always_avail := switch_port_always_avail d;
     cbox_port_pref_profile := cbox_port_pref_profile d |}.

Definition with_port_props (placeholder box : Gtk.Widget → Gtk.Widget) : DevicesPage :=
  {| devices_base := devices_base d;
     listbox_devices := listbox_devices d;
     lbl_dev_props_placeholder := lbl_dev_props_placeholder d;
     box_dev_props := box_dev_props d;
     entry_dev_name := entry_dev_name d;
     listbox_ports := listbox_ports d;
     lbl_port_props_placeholder := placeholder (lbl_port_props_placeholder d);
     box_port_props := box (box_port_props d);
     switch_port_visible := switch_port_visible d;
     entry_port_name := entry_port_name d;
     switch_port_always_avail := switch_port_always_avail d;
     cbox_port_pref_profile := cbox_port_pref_profile d |}.

Definition with_entry_port_name (f : Gtk.Entry → Gtk.Entry) : DevicesPage :=
  {| devices_base := devices_base d;
     listbox_devices := listbox_devices d;
     lbl_dev_props_placeholder := lbl_dev_props_placeholder d;
     box_dev_props := box_dev_props d;
     entry_dev_name := entry_dev_name d;
     listbox_ports := listbox_ports d;
     lbl_port_props_placeholder := lbl_port_props_placeholder d;
     box_port_props := box_port_props d;
     switch_port_visible := switch_port_visible d;
     entry_port_name := f (entry_port_name d);
     switch_port_always_avail := switch_port_always_avail d;
     cbox_port_pref_profile := cbox_port_pref_profile d |}.

(** The two port switches and the profile dropdown; no method assigns
    them, only the user does. *)
Definition with_port_controls
    (visible always_avail : Gtk.Switch → Gtk.Switch) (profile : option nat → option nat)
  : DevicesPage :=
  {| devices_base := devices_base d;
     listbox_devices := listbox_devices d;
     lbl_dev_props_placeholder := lbl_dev_props_placeholder d;
     box_dev_props := box_dev_props d;
     entry_dev_name := entry_dev_name d;
     listbox_ports := listbox_ports d;
     lbl_port_props_placeholder := lbl_port_props_placeholder d;
     box_port_props := box_port_props d;
     switch_port_visible := visible (switch_port_visible d);
     entry_port_name := entry_port_name d;
     switch_port_always_avail := always_avail (switch_port_always_avail d);
     cbox_port_pref_profile := profile (cbox_port_pref_profile d) |}.
End fields.

Section methods.
Context `{!Collaborators}.

(** The widgets built by [_add_device_widgets],
    [_add_device_props_widgets] and [_add_port_props_widgets].  New
    widgets are hidden until shown; the list boxes are empty. *)
Definition __init__ : DevicesPage :=
  {| devices_base := BasePage.__init__ (gettext "_Devices");
     listbox_devices := [];
     lbl_dev_props_placeholder := {| Gtk.visible := false |};
     box_dev_props := {| Gtk.visible := false |};
     entry_dev_name := {| Gtk.text := "" |};
     listbox_ports := [];
     lbl_port_props_placeholder := {| Gtk.visible := false |};
     box_port_props := {| Gtk.visible := false |};
     switch_port_visible := {| Gtk.active := false |};
     entry_port_name := {| Gtk.text := "" |};
     switch_port_always_avail := {| Gtk.active := false |};
     cbox_port_pref_profile := None |}.

(** Update port props widgets. *)
Definition update_port_props_widgets (w : World) : World :=
  let row := Gtk.get_selected_row (listbox_ports (devices w)) in
  match row with
  | None =>
      let w := with_devices (λ d, with_port_props d Gtk.show id) w in
      with_devices (λ d, with_port_props d id Gtk.hide) w
  | Some row =>
      let w := with_devices (λ d, with_entry_port_name d
                 (λ _, {| Gtk.text := Port.display_name (Gtk.data row) |})) w in
      let w := with_devices (λ d, with_port_props d id Gtk.show) w in
      with_devices (λ d, with_port_props d Gtk.hide id) w
  end.

(** Signal handler: ports list box row (un)selected. *)
Definition on_port_row_selected (row : option (Gtk.ListBoxRow Port.t)) (w : World) : World :=
  update_port_props_widgets w.

(** [self.listbox_ports.remove(port_row)] for the child at position
    [i].  When the row taken out was the selected one the toolkit
    emits 'row-selected' with no row, which [__init__] connected to
    [on_port_row_selected]. *)
Definition listbox_ports_remove (i : nat) (w : World) : World :=
  match listbox_ports (devices w) !! i with
  | None => w
  | Some row =>
      let w := with_devices (λ d, with_listbox_ports d (delete i)) w in
      if Gtk.selected row then on_port_row_selected None w else w
  end.

(** [for port_row in self.listbox_ports.get_children(): ...remove(port_row)]:
    the rows before [port_row] are gone by the time it is removed,
    so it sits at position 0. *)
Fixpoint remove_port_rows (children : list (Gtk.ListBoxRow Port.t)) (w : World) : World :=
  match children with
  | [] => w
  | _ :: rest => remove_port_rows rest (listbox_ports_remove 0 w)
  end.

(** The row built for one port in [update_dev_props_widgets]. *)
Definition port_row (port : Port.t) : Gtk.ListBoxRow Port.t :=
  {| Gtk.child := [Gtk.Text (utils.lbl_bold (Port_get_display_name port));
                   Gtk.Text {| Gtk.label := Port.name port; Gtk.markup := Gtk.Plain |}];
     Gtk.data := port;
     Gtk.selected := false |}.

(** Update device props widgets. *)
Definition update_dev_props_widgets (w : World) : World :=
  let row := Gtk.get_selected_row (listbox_devices (devices w)) in
  let w := remove_port_rows (Gtk.get_children (listbox_ports (devices w))) w in
  match row with
  | None =>
      let w := with_devices (λ d, with_dev_props d Gtk.show id) w in
      with_devices (λ d, with_dev_props d id Gtk.hide) w
  | Some row =>
      let w := with_devices (λ d, with_entry_dev_name d
                 (λ _, {| Gtk.text := Card.display_name (Gtk.data row) |})) w in
      let w := fold_left
                 (λ w '(name, port),
                    with_devices (λ d, with_listbox_ports d (Gtk.add (port_row port))) w)
                 (Card.ports (Gtk.data row)) w in
      let w := with_devices (λ d, with_dev_props d id Gtk.show) w in
      with_devices (λ d, with_dev_props d Gtk.hide id) w
  end.

(** Signal handler: devices list box row (un)selected. *)
Definition on_device_row_selected (row : option (Gtk.ListBoxRow Card.t)) (w : World) : World :=
  update_dev_props_widgets w.

(** The row built for one card in [initialise]. *)
Definition device_row (card : Card.t) : Gtk.ListBoxRow Card.t :=
  {| Gtk.child := [Gtk.Image "yast_soundcard";
                   Gtk.Text (utils.lbl_bold (Card_get_display_name card));
                   Gtk.Text {| Gtk.label := Card.name card; Gtk.markup := Gtk.Plain |}];
     Gtk.data := card;
     Gtk.selected := false |}.

(** [self.show_all()]: the page and everything in it. *)
Definition show_all (w : World) : World :=
  let w := with_devices (λ d, with_base d (set_shown true)) w in
  let w := with_devices (λ d, with_dev_props d Gtk.show Gtk.show) w in
  with_devices (λ d, with_port_props d Gtk.show Gtk.show) w.

Definition initialise (w : World) : World :=
  let w := record (Initialise Devices) w in
  let w := fold_left
             (λ w '(idx, card),
                with_devices (λ d, with_listbox_devices d (Gtk.add (device_row card))) w)
             (cards (indicator w)) w in
  let w := show_all w in
  let w := update_dev_props_widgets w in
  update_port_props_widgets w.

Definition on_activate : World → World :=
  BasePage.on_activate (λ w, devices_base (devices w))
    (λ f, with_devices (λ d, with_base d f)) initialise.
End methods.
End DevicesPage.

(** ** MainNotebook *)

Module MainNotebook.
Section methods.
Context `{!Collaborators}.

(** The [BasePage] attributes of a page object. *)
Definition base (page : page_id) (w : World) : BasePage :=
  match page with
  | General => general_base (general w)
  | Devices => devices_base (devices w)
  end.

(** [page.on_activate()], dispatched on the class of [page]. *)
Definition page_on_activate (page : page_id) : World → World :=
  match page with
  | General => GeneralPage.on_activate
  | Devices => DevicesPage.on_activate
  end.

(** Add a single (descendant of) BasePage.  The page appended is not
    shown yet, and the notebook does not make a hidden page current. *)
Definition _add_page (page : page_id) (w : World) : World :=
  with_notebook
    (λ n, {| tabs := tabs n ++ [(page, BasePage.get_label_widget (base page w))];
             current_page := current_page n |}) w.

(** Builds the two pages and appends them; the closing
    [self.connect('switch-page', self.on_switch_page)] is the wiring that
    [navigate] follows. *)
Definition __init__ (indicator : Indicator) : World :=
  let w := {| indicator := indicator; calls := [];
              general := GeneralPage.__init__;
              devices := DevicesPage.__init__;
              notebook := {| tabs := []; current_page := None |} |} in
  let w := _add_page General w in
  _add_page Devices w.

(** Signal handler: current page changed *)
Definition on_switch_page (page : page_id) (index : nat) (w : World) : World :=
  page_on_activate page w.
End methods.
End MainNotebook.

(** ** PreferencesDialog *)

Module PreferencesDialog.
Section methods.
Context `{!Collaborators}.

(** [self.show_all()] on the dialog reaches every widget of both
    pages. *)
Definition show_all (w : World) : World :=
  DevicesPage.show_all (GeneralPage.show_all w).

Definition __init__ (indicator : Indicator) : World :=
  let w := MainNotebook.__init__ indicator in
  show_all w.
End methods.
End PreferencesDialog.

(** ** What the user and the toolkit do to the dialog *)

(** Page activations and row selections. *)
Inductive navigation :=
| SwitchPage (index : nat)
| DeviceRowPicked (sel : option nat)
| PortRowPicked (sel : option nat).

(** The two switches of the general page. *)
Inductive general_switch := ShowInputs | ShowOutputs.

(** The device name entry and the four port controls. *)
Inductive props_control :=
| DevNameTyped (s : string)
| PortVisibleToggled
| PortNameTyped (s : string)
| PortAlwaysAvailToggled
| PortProfilePicked (sel : option nat).

Inductive event :=
| Navigate (n : navigation)
| Toggle (s : general_switch)
| Edit (c : props_control).

Definition toggle (s : Gtk.Switch) : Gtk.Switch := {| Gtk.active := negb (Gtk.active s) |}.

(** The keys and defaults read from the config, and the keys and values
    written to it, in a list of calls. *)
Definition config_reads (l : list call) : list (string * bool) :=
  omap (λ c, match c with ConfigGet k d => Some (k, d) | _ => None end) l.

Definition config_writes (l : list call) : list (string * bool) :=
  omap (λ c, match c with ConfigSet k v => Some (k, v) | _ => None end) l.

(** How often [page.initialise()] was entered. *)
Definition initialise_runs (page : page_id) (l : list call) : nat :=
  length (filter (λ c, c = Initialise page) l).

Arguments config_reads : simpl never.
Arguments config_writes : simpl never.
Arguments initialise_runs : simpl never.

Section events.
Context `{!Collaborators}.

(** 'switch-page' runs [on_switch_page] and then makes the page
    current; a pick in a list box changes the selection and emits
    'row-selected'. *)
Definition navigate (n : navigation) (w : World) : World :=
  match n with
  | SwitchPage index =>
      match tabs (notebook w) !! index with
      | None => w
      | Some (page, _) =>
          let w := MainNotebook.on_switch_page page index w in
          with_notebook (λ n, {| tabs := tabs n; current_page := Some index |}) w
      end
  | DeviceRowPicked sel =>
      let w := with_devices (λ d, DevicesPage.with_listbox_devices d (Gtk.select sel)) w in
      DevicesPage.on_device_row_selected (Gtk.get_selected_row (listbox_devices (devices w))) w
  | PortRowPicked sel =>
      let w := with_devices (λ d, DevicesPage.with_listbox_ports d (Gtk.select sel)) w in
      DevicesPage.on_port_row_selected (Gtk.get_selected_row (listbox_ports (devices w))) w
  end.

(** Flipping a switch of the general page goes through [set_active]. *)
Definition flip_switch (s : general_switch) (w : World) : World :=
  match s with
  | ShowInputs =>
      GeneralPage.switch_inputs_set_active
        (negb (Gtk.active (switch_inputs (general w)))) w
  | ShowOutputs =>
      GeneralPage.switch_outputs_set_active
        (negb (Gtk.active (switch_outputs (general w)))) w
  end.

(** The device name entry and the port controls have no handler
    connected: the widget changes and nothing else happens. *)
Definition edit (c : props_control) (w : World) : World :=
  match c with
  | DevNameTyped s =>
      with_devices (λ d, DevicesPage.with_entry_dev_name d (λ _, {| Gtk.text := s |})) w
  | PortVisibleToggled =>
      with_devices (λ d, DevicesPage.with_port_controls d toggle id id) w
  | PortNameTyped s =>
      with_devices (λ d, DevicesPage.with_entry_port_name d (λ _, {| Gtk.text := s |})) w
  | PortAlwaysAvailToggled =>
      with_devices (λ d, DevicesPage.with_port_controls d id toggle id) w
  | PortProfilePicked sel =>
      with_devices (λ d, DevicesPage.with_port_controls d id id (λ _, sel)) w
  end.

Definition step (e : event) (w : World) : World :=
  match e with
  | Navigate n => navigate n w
  | Toggle s => flip_switch s w
  | Edit c => edit c w
  end.

Definition run (es : list event) (w : World) : World :=
  fold_left (λ w e, step e w) es w.

(** A run of [on_activate] calls on the pages [pages], in order. *)
Definition activations (pages : list page_id) (w : World) : World :=
  fold_left (λ w page, MainNotebook.page_on_activate page w) pages w.
End events.

(** [props_only w w']: going from [w] to [w'] changed nothing but the
    device and port property widgets of the devices page (the two
    placeholders, the two props boxes, the two name entries, the ports
    list box). *)
Definition props_only (w w' : World) : Prop :=
  indicator w' = indicator w ∧ calls w' = calls w ∧ general w' = general w ∧
  notebook w' = notebook w ∧ devices_base (devices w') = devices_base (devices w) ∧
  listbox_devices (devices w') = listbox_devices (devices w).

(** A write to the config under one of the two keys of the general page. *)
Definition show_key (kv : string * bool) : Prop :=
  kv.1 = "show_inputs" ∨ kv.1 = "show_outputs".

(** The calls made by the first activation of a page. *)
Definition activation_calls (page : page_id) : list call :=
  match page with
  | General => [Initialise General; ConfigGet "show_inputs" true; ConfigGet "show_outputs" true]
  | Devices => [Initialise Devices]
  end.

(** ** A small dialog to run the statements on *)

(** Untranslated titles; a card or port is displayed under its
    [display_name]. *)
Definition demo_names : Collaborators :=
  {| gettext := id;
     Card_get_display_name := Card.display_name;
     Port_get_display_name := Port.display_name |}.

Definition demo_card : Card.t :=
  {| Card.name := "alsa_card.pci-0000_00_1b.0";
     Card.display_name := "Built-in Audio";
     Card.ports :=
       [("analog-output-speaker",
         {| Port.name := "analog-output-speaker"; Port.display_name := "Speakers" |});
        ("analog-input-mic",
         {| Port.name := "analog-input-mic"; Port.display_name := "Microphone" |})] |}.

Definition demo_indicator : Indicator :=
  {| config := {["show_inputs" := false]}; cards := [(0%Z, demo_card)] |}.

Definition demo_dialog : World := @PreferencesDialog.__init__ demo_names demo_indicator.

(** ** Notions used in the further statements *)

#[global] Instance navigation_eq_dec : EqDecision navigation.
Proof. solve_decision. Defined.

#[global] Instance general_switch_eq_dec : EqDecision general_switch.
Proof. solve_decision. Defined.

#[global] Instance props_control_eq_dec : EqDecision props_control.
Proof. solve_decision. Defined.

#[global] Instance event_eq_dec : EqDecision event.
Proof. solve_decision. Defined.

(** No row of the list box is selected. *)
Definition no_selection {A} (box : Gtk.ListBox A) : bool :=
  match Gtk.get_selected_row box with
  | None => true
  | Some _ => false
  end.

(** The device placeholder is visible exactly when no device row is
    selected, the device props box exactly when one is. *)
Definition dev_props_ok (d : DevicesPage) : Prop :=
  Gtk.visible (lbl_dev_props_placeholder d) = no_selection (listbox_devices d) ∧
  Gtk.visible (box_dev_props d) = negb (no_selection (listbox_devices d)).

(** The same for the port placeholder, the port props box and the ports
    list box. *)
Definition port_props_ok (d : DevicesPage) : Prop :=
  Gtk.visible (lbl_port_props_placeholder d) = no_selection (listbox_ports d) ∧
  Gtk.visible (box_port_props d) = negb (no_selection (listbox_ports d)).

(** The ports list box holds the ports of the selected device row's card,
    in order, and nothing when no device row is selected. *)
Definition ports_follow_device (d : DevicesPage) : Prop :=
  Gtk.data <$> listbox_ports d
  = match Gtk.get_selected_row (listbox_devices d) with
    | Some row => snd <$> Card.ports (Gtk.data row)
    | None => []
    end.

(** What holds of the devices page in every state the dialog reaches:
    once the page is initialised the placeholders and props boxes agree
    with the selections; the ports list box follows the selected device
    row; the device rows are the cards of the indicator, and there are
    none before the page is initialised. *)
Definition devices_page_inv (w : World) : Prop :=
  (is_initialised (devices_base (devices w)) = true →
   dev_props_ok (devices w) ∧ port_props_ok (devices w)) ∧
  ports_follow_device (devices w) ∧
  Gtk.data <$> listbox_devices (devices w)
  = if is_initialised (devices_base (devices w)) then snd <$> cards (indicator w) else [].

(** Each switch of the general page shows what the config holds under
    its key, [True] standing for an unset key. *)
Definition switches_follow_config (w : World) : Prop :=
  Gtk.active (switch_inputs (general w))
  = default true (config (indicator w) !! "show_inputs") ∧
  Gtk.active (switch_outputs (general w))
  = default true (config (indicator w) !! "show_outputs").

(** The state of the two port switches and of the profile dropdown. *)
Definition port_controls (d : DevicesPage) : Gtk.Switch * Gtk.Switch * option nat :=
  (switch_port_visible d, switch_port_always_avail d, cbox_port_pref_profile d).

(** The port placeholder, the port props box and the port name entry. *)
Definition port_props_widgets (d : DevicesPage) : Gtk.Widget * Gtk.Widget * Gtk.Entry :=
  (lbl_port_props_placeholder d, box_port_props d, entry_port_name d).

(** The position of a page's tab: the order of the [_add_page] calls. *)
Definition tab_index (page : page_id) : nat :=
  match page with
  | General => 0
  | Devices => 1
  end.

(** The calls one event adds to the log, read off the state it arrives
    in. *)
Definition step_calls (e : event) (w : World) : list call :=
  match e with
  | Navigate (SwitchPage index) =>
      match tabs (notebook w) !! index with
      | Some (page, _) =>
          if is_initialised (MainNotebook.base page w) then [] else activation_calls page
      | None => []
      end
  | Navigate _ => []
  | Toggle s =>
      if is_initialised (general_base (general w)) then
        match s with
        | ShowInputs =>
            [ConfigSet "show_inputs" (negb (Gtk.active (switch_inputs (general w))));
             OnRefresh]
        | ShowOutputs =>
            [ConfigSet "show_outputs" (negb (Gtk.active (switch_outputs (general w))));
             OnRefresh]
        end
      else []
  | Edit _ => []
  end.

(** Every [OnRefresh] of the list comes right after a [ConfigSet];
    [after_write] says whether the call before the list was one. *)
Fixpoint refresh_follows_write (after_write : bool) (l : list call) : bool :=
  match l with
  | [] => true
  | OnRefresh :: l => after_write && refresh_follows_write false l
  | ConfigSet _ _ :: l => refresh_follows_write true l
  | _ :: l => refresh_follows_write false l
  end.

Definition refreshes (l : list call) : nat :=
  length (filter (λ c, c = OnRefresh) l).

Arguments refreshes : simpl never.

(** * Properties *)

Section properties.
Context `{!Collaborators}.

(** ** The general page *)

Lemma bool_decide_negb (b : bool) : bool_decide (b = negb b) = false.
Proof. by destruct b. Qed.

Lemma calls_record (c : call) (w : World) : calls (record c w) = calls w ++ [c].
Proof. done. Qed.

Lemma initialise_runs_app (page : page_id) (l1 l2 : list call) :
  initialise_runs page (l1 ++ l2) = initialise_runs page l1 + initialise_runs page l2.
Proof. unfold initialise_runs. by rewrite filter_app, length_app. Qed.

Lemma config_reads_app (l1 l2 : list call) :
  config_reads (l1 ++ l2) = config_reads l1 ++ config_reads l2.
Proof. apply omap_app. Qed.

Lemma config_writes_app (l1 l2 : list call) :
  config_writes (l1 ++ l2) = config_writes l1 ++ config_writes l2.
Proof. apply omap_app. Qed.

(** A handler of the general page on an initialised page: the write,
    then the refresh. *)
Lemma on_switch_inputs_set_initialised (widget : Gtk.Switch) (w : World) :
  is_initialised (general_base (general w)) = true →
  GeneralPage.on_switch_inputs_set widget w
  = on_refresh (config_setitem "show_inputs" (Gtk.active widget) w).
Proof. intros Hi. unfold GeneralPage.on_switch_inputs_set. by rewrite Hi. Qed.

Lemma on_switch_outputs_set_initialised (widget : Gtk.Switch) (w : World) :
  is_initialised (general_base (general w)) = true →
  GeneralPage.on_switch_outputs_set widget w
  = on_refresh (config_setitem "show_outputs" (Gtk.active widget) w).
Proof. intros Hi. unfold GeneralPage.on_switch_outputs_set. by rewrite Hi. Qed.

Lemma on_switch_inputs_set_uninitialised (widget : Gtk.Switch) (w : World) :
  is_initialised (general_base (general w)) = false →
  GeneralPage.on_switch_inputs_set widget w = w.
Proof. intros Hi. unfold GeneralPage.on_switch_inputs_set. by rewrite Hi. Qed.

Lemma on_switch_outputs_set_uninitialised (widget : Gtk.Switch) (w : World) :
  is_initialised (general_base (general w)) = false →
  GeneralPage.on_switch_outputs_set widget w = w.
Proof. intros Hi. unfold GeneralPage.on_switch_outputs_set. by rewrite Hi. Qed.

(** C1: on an initialised general page, flipping 'Show inputs' stores
    the switch's new active state under 'show_inputs' and then calls
    [on_refresh]; flipping 'Show outputs' does the same under
    'show_outputs'.  The write comes before the refresh. *)
Theorem toggle_writes_then_refreshes (w : World) :
  is_initialised (general_base (general w)) = true →
  (let w' := flip_switch ShowInputs w in
   let v := Gtk.active (switch_inputs (general w')) in
   v = negb (Gtk.active (switch_inputs (general w))) ∧
   config (indicator w') = <["show_inputs" := v]> (config (indicator w)) ∧
   calls w' = calls w ++ [ConfigSet "show_inputs" v; OnRefresh]) ∧
  (let w' := flip_switch ShowOutputs w in
   let v := Gtk.active (switch_outputs (general w')) in
   v = negb (Gtk.active (switch_outputs (general w))) ∧
   config (indicator w') = <["show_outputs" := v]> (config (indicator w)) ∧
   calls w' = calls w ++ [ConfigSet "show_outputs" v; OnRefresh]).
Proof.
  intros Hi. split.
  - unfold flip_switch, GeneralPage.switch_inputs_set_active.
    rewrite bool_decide_negb.
    rewrite on_switch_inputs_set_initialised by done.
    cbn. by rewrite <- (assoc_L (++)).
  - unfold flip_switch, GeneralPage.switch_outputs_set_active.
    rewrite bool_decide_negb.
    rewrite on_switch_outputs_set_initialised by done.
    cbn. by rewrite <- (assoc_L (++)).
Qed.

(** [set_active] on a switch of the general page, whatever the page's
    state: the switch ends up in the requested position, the other
    attributes of the page stay, and the config changes at most under
    the switch's own key. *)
Lemma switch_inputs_set_active_spec (v : bool) (w : World) :
  let w' := GeneralPage.switch_inputs_set_active v w in
  Gtk.active (switch_inputs (general w')) = v ∧
  switch_outputs (general w') = switch_outputs (general w) ∧
  general_base (general w') = general_base (general w) ∧
  devices w' = devices w ∧ notebook w' = notebook w ∧
  cards (indicator w') = cards (indicator w) ∧
  (∀ k, k ≠ "show_inputs" → config (indicator w') !! k = config (indicator w) !! k) ∧
  config_reads (calls w') = config_reads (calls w) ∧
  (∀ page, initialise_runs page (calls w') = initialise_runs page (calls w)) ∧
  (is_initialised (general_base (general w)) = false →
   indicator w' = indicator w ∧ calls w' = calls w).
Proof.
  unfold GeneralPage.switch_inputs_set_active, GeneralPage.on_switch_inputs_set.
  case_bool_decide as Hv; cbn.
  { by repeat split. }
  destruct (is_initialised (general_base (general w))); cbn.
  - repeat split; try done.
    + intros k Hk. by rewrite lookup_insert_ne.
    + rewrite !config_reads_app. by rewrite !app_nil_r.
    + intros page. rewrite !initialise_runs_app.
      change (initialise_runs page [ConfigSet _ _]) with 0.
      change (initialise_runs page [OnRefresh]) with 0. lia.
  - by repeat split.
Qed.

Lemma switch_outputs_set_active_spec (v : bool) (w : World) :
  let w' := GeneralPage.switch_outputs_set_active v w in
  Gtk.active (switch_outputs (general w')) = v ∧
  switch_inputs (general w') = switch_inputs (general w) ∧
  general_base (general w') = general_base (general w) ∧
  devices w' = devices w ∧ notebook w' = notebook w ∧
  cards (indicator w') = cards (indicator w) ∧
  (∀ k, k ≠ "show_outputs" → config (indicator w') !! k = config (indicator w) !! k) ∧
  config_reads (calls w') = config_reads (calls w) ∧
  (∀ page, initialise_runs page (calls w') = initialise_runs page (calls w)) ∧
  (is_initialised (general_base (general w)) = false →
   indicator w' = indicator w ∧ calls w' = calls w).
Proof.
  unfold GeneralPage.switch_outputs_set_active, GeneralPage.on_switch_outputs_set.
  case_bool_decide as Hv; cbn.
  { by repeat split. }
  destruct (is_initialised (general_base (general w))); cbn.
  - repeat split; try done.
    + intros k Hk. by rewrite lookup_insert_ne.
    + rewrite !config_reads_app. by rewrite !app_nil_r.
    + intros page. rewrite !initialise_runs_app.
      change (initialise_runs page [ConfigSet _ _]) with 0.
      change (initialise_runs page [OnRefresh]) with 0. lia.
  - by repeat split.
Qed.

Lemma initialise_runs_single (page page' : page_id) :
  initialise_runs page [Initialise page'] = if decide (page = page') then 1 else 0.
Proof.
  unfold initialise_runs. destruct (decide (page = page')) as [->|Hne].
  - by rewrite filter_cons_True.
  - rewrite filter_cons_False; [done|]. intros [=]. by apply Hne.
Qed.

(** [GeneralPage.initialise], whatever the page's state. *)
Lemma general_initialise_spec (w : World) :
  let w' := GeneralPage.initialise w in
  Gtk.active (switch_inputs (general w'))
  = default true (config (indicator w) !! "show_inputs") ∧
  Gtk.active (switch_outputs (general w'))
  = default true (config (indicator w) !! "show_outputs") ∧
  config_reads (calls w')
  = config_reads (calls w) ++ [("show_inputs", true); ("show_outputs", true)] ∧
  is_initialised (general_base (general w')) = is_initialised (general_base (general w)) ∧
  devices w' = devices w ∧ notebook w' = notebook w ∧
  cards (indicator w') = cards (indicator w) ∧
  (∀ page, initialise_runs page (calls w')
           = initialise_runs page (calls w) + if decide (page = General) then 1 else 0) ∧
  (is_initialised (general_base (general w)) = false →
   indicator w' = indicator w ∧
   calls w' = calls w ++ [Initialise General; ConfigGet "show_inputs" true;
                          ConfigGet "show_outputs" true]).
Proof.
  unfold GeneralPage.initialise, config_getitem.
  set (w1 := record (Initialise General) w).
  set (v1 := default true (config (indicator w1) !! "show_inputs")).
  set (w2 := record (ConfigGet "show_inputs" true) w1).
  destruct (switch_inputs_set_active_spec v1 w2)
    as (Ha3 & Ho3 & Hb3 & Hd3 & Hn3 & Hc3 & Hk3 & Hr3 & Hi3 & Hu3).
  set (w3 := GeneralPage.switch_inputs_set_active v1 w2) in *.
  set (v2 := default true (config (indicator w3) !! "show_outputs")).
  set (w4 := record (ConfigGet "show_outputs" true) w3).
  destruct (switch_outputs_set_active_spec v2 w4)
    as (Ha5 & Ho5 & Hb5 & Hd5 & Hn5 & Hc5 & Hk5 & Hr5 & Hi5 & Hu5).
  set (w5 := GeneralPage.switch_outputs_set_active v2 w4) in *.
  cbn. split_and!.
  - by rewrite Ho5.
  - rewrite Ha5. unfold v2. by rewrite Hk3.
  - rewrite Hr5. unfold w4. rewrite calls_record, config_reads_app, Hr3.
    unfold w2, w1. rewrite !calls_record, !config_reads_app.
    by rewrite <- !(assoc_L (++)).
  - rewrite Hb5. unfold w4; cbn. by rewrite Hb3.
  - rewrite Hd5. unfold w4; cbn. by rewrite Hd3.
  - rewrite Hn5. unfold w4; cbn. by rewrite Hn3.
  - rewrite Hc5. unfold w4; cbn. by rewrite Hc3.
  - intros page. rewrite Hi5. unfold w4. rewrite calls_record, initialise_runs_app, Hi3.
    unfold w2, w1. rewrite !calls_record, !initialise_runs_app, initialise_runs_single.
    change (initialise_runs page [ConfigGet _ _]) with 0. lia.
  - intros Hinit. destruct (Hu3 Hinit) as [Hx3 Hy3]. destruct Hu5 as [Hx5 Hy5].
    { unfold w4; cbn. by rewrite Hb3. }
    split.
    + rewrite Hx5. unfold w4; cbn. by rewrite Hx3.
    + rewrite Hy5. unfold w4. rewrite calls_record, Hy3. unfold w2, w1.
      rewrite !calls_record. by rewrite <- !(assoc_L (++)).
Qed.

(** ** The devices page *)

Lemma props_only_refl (w : World) : props_only w w.
Proof. by repeat split. Qed.

Lemma props_only_trans (w1 w2 w3 : World) :
  props_only w1 w2 → props_only w2 w3 → props_only w1 w3.
Proof. unfold props_only. intros (?&?&?&?&?&?) (?&?&?&?&?&?). repeat split; congruence. Qed.

Lemma update_port_props_widgets_frame (w : World) :
  props_only w (DevicesPage.update_port_props_widgets w) ∧
  listbox_ports (devices (DevicesPage.update_port_props_widgets w))
  = listbox_ports (devices w).
Proof.
  unfold DevicesPage.update_port_props_widgets.
  by destruct (Gtk.get_selected_row (listbox_ports (devices w))).
Qed.

Lemma listbox_ports_remove_frame (w : World) :
  props_only w (DevicesPage.listbox_ports_remove 0 w) ∧
  listbox_ports (devices (DevicesPage.listbox_ports_remove 0 w))
  = drop 1 (listbox_ports (devices w)).
Proof.
  unfold DevicesPage.listbox_ports_remove, DevicesPage.on_port_row_selected.
  destruct (listbox_ports (devices w)) as [|row rows] eqn:Hrows; cbn.
  { rewrite Hrows. split; [apply props_only_refl | done]. }
  destruct (Gtk.selected row).
  - match goal with |- context [DevicesPage.update_port_props_widgets ?x] =>
      destruct (update_port_props_widgets_frame x) as [Hf Hl] end.
    split; [|rewrite Hl; cbn; by rewrite Hrows].
    eapply props_only_trans; [|exact Hf]. by repeat split.
  - split; [by repeat split|]. cbn. by rewrite Hrows.
Qed.

(** The loop at the top of [update_dev_props_widgets] takes one row out
    of the ports list box per child it was given. *)
Lemma remove_port_rows_frame (children : list (Gtk.ListBoxRow Port.t)) (w : World) :
  props_only w (DevicesPage.remove_port_rows children w) ∧
  listbox_ports (devices (DevicesPage.remove_port_rows children w))
  = drop (length children) (listbox_ports (devices w)).
Proof.
  revert w. induction children as [|row rest IH]; intros w; cbn.
  { split; [apply props_only_refl | done]. }
  destruct (listbox_ports_remove_frame w) as [Hf Hl].
  destruct (IH (DevicesPage.listbox_ports_remove 0 w)) as [Hf' Hl'].
  split; [by eapply props_only_trans|].
  by rewrite Hl', Hl, drop_drop.
Qed.

Lemma remove_all_port_rows (w : World) :
  listbox_ports (devices (DevicesPage.remove_port_rows
                            (Gtk.get_children (listbox_ports (devices w))) w)) = [].
Proof.
  destruct (remove_port_rows_frame (Gtk.get_children (listbox_ports (devices w))) w) as [_ ->].
  apply drop_all.
Qed.

(** The loop over [row.card.ports.items()]. *)
Lemma add_port_rows (ports : list (string * Port.t)) (w : World) :
  let w' := fold_left
              (λ w '(name, port),
                 with_devices (λ d, DevicesPage.with_listbox_ports d
                                      (Gtk.add (DevicesPage.port_row port))) w)
              ports w in
  props_only w w' ∧
  lbl_dev_props_placeholder (devices w') = lbl_dev_props_placeholder (devices w) ∧
  box_dev_props (devices w') = box_dev_props (devices w) ∧
  entry_dev_name (devices w') = entry_dev_name (devices w) ∧
  listbox_ports (devices w')
  = listbox_ports (devices w) ++ (DevicesPage.port_row ∘ snd <$> ports).
Proof.
  revert w. induction ports as [|[name port] ports IH]; intros w; cbn.
  { split; [apply props_only_refl|]. by rewrite app_nil_r. }
  match goal with |- context [fold_left _ _ ?x] => destruct (IH x) as (Hf & Hp & Hb & He & Hl) end.
  split; [eapply props_only_trans; [|exact Hf]; by repeat split|].
  rewrite Hp, Hb, He, Hl. split_and!; try done.
  cbn. unfold Gtk.add. by rewrite <- (assoc_L (++)).
Qed.

(** The loop over [self.indicator.cards.items()]. *)
Lemma add_device_rows (cs : list (Z * Card.t)) (w : World) :
  let w' := fold_left
              (λ w '(idx, card),
                 with_devices (λ d, DevicesPage.with_listbox_devices d
                                      (Gtk.add (DevicesPage.device_row card))) w)
              cs w in
  indicator w' = indicator w ∧ calls w' = calls w ∧ general w' = general w ∧
  notebook w' = notebook w ∧ devices_base (devices w') = devices_base (devices w) ∧
  listbox_devices (devices w')
  = listbox_devices (devices w) ++ (DevicesPage.device_row ∘ snd <$> cs).
Proof.
  revert w. induction cs as [|[idx card] cs IH]; intros w; cbn.
  { split_and!; try done. by rewrite app_nil_r. }
  match goal with |- context [fold_left _ _ ?x] => destruct (IH x) as (Hi & Hc & Hg & Hn & Hb & Hl) end.
  rewrite Hi, Hc, Hg, Hn, Hb, Hl. split_and!; try done.
  cbn. unfold Gtk.add. by rewrite <- (assoc_L (++)).
Qed.

Lemma update_dev_props_widgets_spec (w : World) :
  let w' := DevicesPage.update_dev_props_widgets w in
  props_only w w' ∧
  match Gtk.get_selected_row (listbox_devices (devices w)) with
  | None =>
      lbl_dev_props_placeholder (devices w') = {| Gtk.visible := true |} ∧
      box_dev_props (devices w') = {| Gtk.visible := false |} ∧
      listbox_ports (devices w') = []
  | Some row =>
      lbl_dev_props_placeholder (devices w') = {| Gtk.visible := false |} ∧
      box_dev_props (devices w') = {| Gtk.visible := true |} ∧
      listbox_ports (devices w') = (DevicesPage.port_row ∘ snd <$> Card.ports (Gtk.data row)) ∧
      entry_dev_name (devices w') = {| Gtk.text := Card.display_name (Gtk.data row) |}
  end.
Proof.
  unfold DevicesPage.update_dev_props_widgets.
  destruct (remove_port_rows_frame (Gtk.get_children (listbox_ports (devices w))) w) as [Hf _].
  pose proof (remove_all_port_rows w) as Hl.
  set (w1 := DevicesPage.remove_port_rows _ w) in *.
  destruct (Gtk.get_selected_row (listbox_devices (devices w))) as [row|].
  - match goal with |- context [fold_left ?f ?l ?x] =>
      destruct (add_port_rows l x) as (Hf2 & Hp2 & Hb2 & He2 & Hl2);
      set (w2 := fold_left f l x) in * end.
    cbn in Hl2. rewrite Hl in Hl2. split; [|by cbn].
    eapply props_only_trans; [exact Hf|].
    eapply props_only_trans; [|eapply props_only_trans; [exact Hf2|]]; by repeat split.
  - split; [|by cbn].
    eapply props_only_trans; [exact Hf|]. by repeat split.
Qed.

Lemma devices_initialise_spec (w : World) :
  let w' := DevicesPage.initialise w in
  indicator w' = indicator w ∧ calls w' = calls w ++ [Initialise Devices] ∧
  general w' = general w ∧ notebook w' = notebook w ∧
  is_initialised (devices_base (devices w')) = is_initialised (devices_base (devices w)) ∧
  listbox_devices (devices w')
  = listbox_devices (devices w) ++ (DevicesPage.device_row ∘ snd <$> cards (indicator w)).
Proof.
  unfold DevicesPage.initialise.
  set (w1 := record (Initialise Devices) w).
  destruct (add_device_rows (cards (indicator w1)) w1) as (Hi & Hc & Hg & Hn & Hb & Hl).
  set (w2 := fold_left _ _ w1) in *.
  set (w3 := DevicesPage.show_all w2).
  destruct (update_dev_props_widgets_spec w3) as [(Hi4 & Hc4 & Hg4 & Hn4 & Hb4 & Hl4) _].
  set (w4 := DevicesPage.update_dev_props_widgets w3) in *.
  destruct (update_port_props_widgets_frame w4) as [(Hi5 & Hc5 & Hg5 & Hn5 & Hb5 & Hl5) _].
  cbn. rewrite Hi5, Hc5, Hg5, Hn5, Hb5, Hl5, Hi4, Hc4, Hg4, Hn4, Hb4, Hl4.
  unfold w3. cbn. rewrite Hi, Hc, Hg, Hn, Hb, Hl. by unfold w1.
Qed.

(** ** Activation *)

Lemma page_on_activate_spec (page : page_id) (w : World) :
  let w' := MainNotebook.page_on_activate page w in
  is_initialised (MainNotebook.base page w') = true ∧
  (∀ q, is_initialised (MainNotebook.base q w) = true →
        is_initialised (MainNotebook.base q w') = true) ∧
  notebook w' = notebook w ∧ indicator w' = indicator w ∧
  calls w' = calls w ++
             (if is_initialised (MainNotebook.base page w) then [] else activation_calls page) ∧
  (is_initialised (MainNotebook.base page w) = true → w' = w).
Proof.
  destruct page; cbn;
    [unfold GeneralPage.on_activate | unfold DevicesPage.on_activate];
    unfold BasePage.on_activate.
  - destruct (is_initialised (general_base (general w))) eqn:Hinit; cbn.
    { rewrite app_nil_r. split_and!; try done. }
    destruct (general_initialise_spec w) as (_ & _ & _ & Hb & Hd & Hn & _ & _ & Hu).
    destruct (Hu Hinit) as [Hi Hc].
    split_and!; try done.
    intros [] Hq; cbn in *; [done|]. by rewrite Hd.
  - destruct (is_initialised (devices_base (devices w))) eqn:Hinit; cbn.
    { rewrite app_nil_r. split_and!; try done. }
    destruct (devices_initialise_spec w) as (Hi & Hc & Hg & Hn & Hb & _).
    split_and!; try done.
    intros [] Hq; cbn in *; [|done]. by rewrite Hg.
Qed.

(** ** Single events *)

Lemma navigate_spec (n : navigation) (w : World) :
  let w' := navigate n w in
  indicator w' = indicator w ∧ tabs (notebook w') = tabs (notebook w) ∧
  (∀ q, is_initialised (MainNotebook.base q w) = true →
        is_initialised (MainNotebook.base q w') = true) ∧
  ∃ new, calls w' = calls w ++ new ∧ config_writes new = [] ∧
         ∀ q, is_initialised (MainNotebook.base q w) = true → initialise_runs q new = 0.
Proof.
  destruct n as [index|sel|sel]; cbn.
  - destruct (tabs (notebook w) !! index) as [[page lbl]|] eqn:Htab; cbn.
    + unfold MainNotebook.on_switch_page.
      destruct (page_on_activate_spec page w) as (_ & Hm & Hn & Hi & Hc & _).
      rewrite Hn. split_and!; [done | done | |].
      { intros q Hq. specialize (Hm q Hq). by destruct q. }
      eexists. split; [exact Hc|].
      destruct (is_initialised (MainNotebook.base page w)) eqn:Hinit; [done|].
      split; [by destruct page|].
      intros q Hq. destruct page, q; try done; cbn in *; congruence.
    + split_and!; [done | done | done |]. exists []. by rewrite app_nil_r.
  - unfold DevicesPage.on_device_row_selected.
    match goal with |- context [DevicesPage.update_dev_props_widgets ?x] =>
      destruct (update_dev_props_widgets_spec x) as [(Hi & Hc & Hg & Hn & Hb & _) _] end.
    rewrite Hi, Hn. split_and!; [done | done | |].
    { intros [] Hq; cbn in *; by rewrite ?Hg, ?Hb. }
    exists []. by rewrite app_nil_r.
  - unfold DevicesPage.on_port_row_selected.
    match goal with |- context [DevicesPage.update_port_props_widgets ?x] =>
      destruct (update_port_props_widgets_frame x) as [(Hi & Hc & Hg & Hn & Hb & _) _] end.
    rewrite Hi, Hn. split_and!; [done | done | |].
    { intros [] Hq; cbn in *; by rewrite ?Hg, ?Hb. }
    exists []. by rewrite app_nil_r.
Qed.

Lemma flip_switch_spec (s : general_switch) (w : World) :
  let w' := flip_switch s w in
  cards (indicator w') = cards (indicator w) ∧ notebook w' = notebook w ∧
  (∀ q, MainNotebook.base q w' = MainNotebook.base q w) ∧
  ∃ new, calls w' = calls w ++ new ∧ Forall show_key (config_writes new) ∧
         ∀ q, initialise_runs q new = 0.
Proof.
  destruct s; cbn.
  - destruct (switch_inputs_set_active_spec
                (negb (Gtk.active (switch_inputs (general w)))) w)
      as (_ & _ & Hb & Hd & Hn & Hc & _).
    split_and!; [done | done | |].
    { intros []; cbn; by rewrite ?Hb, ?Hd. }
    unfold GeneralPage.switch_inputs_set_active, GeneralPage.on_switch_inputs_set.
    rewrite bool_decide_negb. cbn.
    destruct (is_initialised (general_base (general w))); cbn.
    + eexists [_; _]. rewrite <- (assoc_L (++)). split; [done|].
      split; [|done]. unfold config_writes; cbn.
      apply Forall_cons. split; [by left | constructor].
    + exists []. rewrite app_nil_r. split_and!; [done | constructor | done].
  - destruct (switch_outputs_set_active_spec
                (negb (Gtk.active (switch_outputs (general w)))) w)
      as (_ & _ & Hb & Hd & Hn & Hc & _).
    split_and!; [done | done | |].
    { intros []; cbn; by rewrite ?Hb, ?Hd. }
    unfold GeneralPage.switch_outputs_set_active, GeneralPage.on_switch_outputs_set.
    rewrite bool_decide_negb. cbn.
    destruct (is_initialised (general_base (general w))); cbn.
    + eexists [_; _]. rewrite <- (assoc_L (++)). split; [done|].
      split; [|done]. unfold config_writes; cbn.
      apply Forall_cons. split; [by right | constructor].
    + exists []. rewrite app_nil_r. split_and!; [done | constructor | done].
Qed.

Lemma edit_spec (c : props_control) (w : World) :
  let w' := edit c w in
  indicator w' = indicator w ∧ calls w' = calls w ∧ general w' = general w ∧
  notebook w' = notebook w ∧ devices_base (devices w') = devices_base (devices w) ∧
  listbox_devices (devices w') = listbox_devices (devices w) ∧
  listbox_ports (devices w') = listbox_ports (devices w).
Proof. by destruct c. Qed.

(** What every event keeps and what it may add to the calls. *)
Lemma step_spec (e : event) (w : World) :
  let w' := step e w in
  tabs (notebook w') = tabs (notebook w) ∧
  (∀ q, is_initialised (MainNotebook.base q w) = true →
        is_initialised (MainNotebook.base q w') = true) ∧
  ∃ new, calls w' = calls w ++ new ∧ Forall show_key (config_writes new) ∧
         ∀ q, is_initialised (MainNotebook.base q w) = true → initialise_runs q new = 0.
Proof.
  destruct e as [n|s|c]; cbn.
  - destruct (navigate_spec n w) as (_ & Ht & Hm & new & Hc & Hw & Hr).
    split_and!; [done | done |]. exists new. rewrite Hw.
    split_and!; [done | constructor | done].
  - destruct (flip_switch_spec s w) as (_ & Hn & Hb & new & Hc & Hw & Hr).
    rewrite Hn. split_and!; [done | |].
    { intros q Hq. by rewrite Hb. }
    exists new. split_and!; [done | done |]. intros q _. apply Hr.
  - destruct (edit_spec c w) as (Hi & Hc & Hg & Hn & Hb & _).
    rewrite Hn. split_and!; [done | |].
    { intros [] Hq; cbn in *; by rewrite ?Hg, ?Hb. }
    exists []. rewrite app_nil_r. split_and!; [done | constructor | done].
Qed.

Lemma flip_switch_config (s : general_switch) (w : World) (k : string) :
  k ≠ "show_inputs" → k ≠ "show_outputs" →
  config (indicator (flip_switch s w)) !! k = config (indicator w) !! k.
Proof.
  intros Hi Ho. destruct s; cbn.
  - by apply switch_inputs_set_active_spec.
  - by apply switch_outputs_set_active_spec.
Qed.

Lemma step_config (e : event) (w : World) (k : string) :
  k ≠ "show_inputs" → k ≠ "show_outputs" →
  config (indicator (step e w)) !! k = config (indicator w) !! k.
Proof.
  intros Hi Ho. destruct e as [n|s|c]; cbn.
  - destruct (navigate_spec n w) as [-> _]. done.
  - by apply flip_switch_config.
  - destruct (edit_spec c w) as [-> _]. done.
Qed.

(** ** Runs of events *)

Lemma run_cons (e : event) (es : list event) (w : World) :
  run (e :: es) w = run es (step e w).
Proof. done. Qed.

Lemma run_app (es1 es2 : list event) (w : World) :
  run (es1 ++ es2) w = run es2 (run es1 w).
Proof. apply fold_left_app. Qed.

Lemma run_spec (es : list event) (w : World) :
  let w' := run es w in
  tabs (notebook w') = tabs (notebook w) ∧
  (∀ q, is_initialised (MainNotebook.base q w) = true →
        is_initialised (MainNotebook.base q w') = true) ∧
  ∃ new, calls w' = calls w ++ new ∧ Forall show_key (config_writes new) ∧
         ∀ q, is_initialised (MainNotebook.base q w) = true → initialise_runs q new = 0.
Proof.
  revert w. induction es as [|e es IH]; intros w.
  { cbn. split_and!; [done | done |]. exists []. rewrite app_nil_r.
    split_and!; [done | constructor | done]. }
  rewrite run_cons.
  destruct (step_spec e w) as (Ht & Hm & new1 & Hc1 & Hw1 & Hr1).
  destruct (IH (step e w)) as (Ht' & Hm' & new2 & Hc2 & Hw2 & Hr2).
  cbn zeta. split_and!.
  - by rewrite Ht'.
  - intros q Hq. by apply Hm', Hm.
  - exists (new1 ++ new2). split_and!.
    + by rewrite Hc2, Hc1, <- (assoc_L (++)).
    + rewrite config_writes_app. by apply Forall_app.
    + intros q Hq. rewrite initialise_runs_app, Hr1, Hr2; [done | by apply Hm | done].
Qed.

Lemma run_config (es : list event) (w : World) (k : string) :
  k ≠ "show_inputs" → k ≠ "show_outputs" →
  config (indicator (run es w)) !! k = config (indicator w) !! k.
Proof.
  intros Hi Ho. revert w. induction es as [|e es IH]; intros w; [done|].
  by rewrite run_cons, IH, step_config.
Qed.

Lemma run_navigate (ns : list navigation) (w : World) :
  indicator (run (Navigate <$> ns) w) = indicator w.
Proof.
  revert w. induction ns as [|n ns IH]; intros w; [done|].
  rewrite fmap_cons, run_cons, IH. cbn. by destruct (navigate_spec n w) as [-> _].
Qed.

Lemma run_edit (cs : list props_control) (w : World) :
  indicator (run (Edit <$> cs) w) = indicator w ∧ calls (run (Edit <$> cs) w) = calls w.
Proof.
  revert w. induction cs as [|c cs IH]; intros w; [done|].
  rewrite fmap_cons, run_cons. destruct (IH (step (Edit c) w)) as [-> ->].
  cbn. by destruct (edit_spec c w) as (-> & -> & _).
Qed.

Lemma activations_cons (page : page_id) (pages : list page_id) (w : World) :
  activations (page :: pages) w = activations pages (MainNotebook.page_on_activate page w).
Proof. done. Qed.

Lemma activations_spec (pages : list page_id) (w : World) (q : page_id) :
  is_initialised (MainNotebook.base q w) = true →
  is_initialised (MainNotebook.base q (activations pages w)) = true ∧
  initialise_runs q (calls (activations pages w)) = initialise_runs q (calls w).
Proof.
  revert w. induction pages as [|page pages IH]; intros w Hq; [done|].
  rewrite activations_cons.
  destruct (page_on_activate_spec page w) as (_ & Hm & _ & _ & Hc & _).
  destruct (IH _ (Hm q Hq)) as [Hi Hr]. split; [done|].
  rewrite Hr, Hc, initialise_runs_app.
  destruct (is_initialised (MainNotebook.base page w)) eqn:Hinit; [done|].
  destruct page, q; cbn in *; try congruence; done.
Qed.

(** ** The freshly built dialog *)

Lemma init_indicator (ind : Indicator) : indicator (PreferencesDialog.__init__ ind) = ind.
Proof. reflexivity. Qed.

Lemma init_calls (ind : Indicator) : calls (PreferencesDialog.__init__ ind) = [].
Proof. reflexivity. Qed.

Lemma init_uninitialised (ind : Indicator) (page : page_id) :
  is_initialised (MainNotebook.base page (PreferencesDialog.__init__ ind)) = false.
Proof. by destruct page. Qed.

Lemma init_listbox_devices (ind : Indicator) :
  listbox_devices (devices (PreferencesDialog.__init__ ind)) = [].
Proof. reflexivity. Qed.

Lemma init_current_page (ind : Indicator) :
  current_page (notebook (PreferencesDialog.__init__ ind)) = None.
Proof. reflexivity. Qed.

Lemma devices_on_activate_uninitialised (w : World) :
  is_initialised (devices_base (devices w)) = false →
  DevicesPage.on_activate w
  = with_devices (λ d, DevicesPage.with_base d (set_is_initialised true))
      (DevicesPage.initialise w).
Proof.
  intros Hi. unfold DevicesPage.on_activate, BasePage.on_activate. by rewrite Hi.
Qed.

Lemma general_on_activate_uninitialised (w : World) :
  is_initialised (general_base (general w)) = false →
  GeneralPage.on_activate w
  = with_general (GeneralPage.with_base (set_is_initialised true))
      (GeneralPage.initialise w).
Proof.
  intros Hi. unfold GeneralPage.on_activate, BasePage.on_activate. by rewrite Hi.
Qed.

Lemma listbox_devices_with_base (f : BasePage → BasePage) (w : World) :
  listbox_devices (devices (with_devices (λ d, DevicesPage.with_base d f) w))
  = listbox_devices (devices w).
Proof. reflexivity. Qed.

(** ** The statements about the dialog *)

(** C2: whatever the user does, the dialog writes to the config only
    under 'show_inputs' and 'show_outputs', and every other key keeps
    its value; the device name entry and the four port controls have no
    handler, so a run of interactions with them leaves the indicator as
    it was and makes no call at all. *)
Theorem only_show_keys_written :
  (∀ (es : list event) (w : World),
      ∃ new, calls (run es w) = calls w ++ new ∧ Forall show_key (config_writes new)) ∧
  (∀ (es : list event) (w : World) (k : string),
      k ≠ "show_inputs" → k ≠ "show_outputs" →
      config (indicator (run es w)) !! k = config (indicator w) !! k) ∧
  (∀ (cs : list props_control) (w : World),
      indicator (run (Edit <$> cs) w) = indicator w ∧
      calls (run (Edit <$> cs) w) = calls w).
Proof.
  split_and!.
  - intros es w. destruct (run_spec es w) as (_ & _ & new & Hc & Hw & _). by exists new.
  - intros es w k. apply run_config.
  - apply run_edit.
Qed.

(** C3: a run of page activations and row selections leaves
    [indicator.cards], ports included, exactly as it was. *)
Theorem device_model_only_read (ns : list navigation) (w : World) :
  cards (indicator (run (Navigate <$> ns) w)) = cards (indicator w).
Proof. by rewrite run_navigate. Qed.

(** C4: the notebook holds two pages, the general page then the devices
    page, each under the label widget its [get_label_widget] returns,
    and no event changes that. *)
Theorem notebook_has_two_pages (ind : Indicator) (es : list event) :
  let pages := [(General, BasePage.get_label_widget (general_base GeneralPage.__init__));
                (Devices, BasePage.get_label_widget (devices_base DevicesPage.__init__))] in
  tabs (notebook (MainNotebook.__init__ ind)) = pages ∧
  tabs (notebook (run es (PreferencesDialog.__init__ ind))) = pages ∧
  pages = [(General, {| Gtk.label := gettext "_General"; Gtk.markup := Gtk.Mnemonic |});
           (Devices, {| Gtk.label := gettext "_Devices"; Gtk.markup := Gtk.Mnemonic |})].
Proof.
  cbn zeta. split_and!; [done | | done].
  by destruct (run_spec es (PreferencesDialog.__init__ ind)) as [-> _].
Qed.

(** C5: [GeneralPage.initialise] asks the config for 'show_inputs' and
    for 'show_outputs', each with default [True], and leaves the inputs
    switch and the outputs switch in the positions it was given: the
    stored value, or [True] for an unset key. *)
Theorem general_initialise_reads_config (w : World) :
  let w' := GeneralPage.initialise w in
  config_reads (calls w')
  = config_reads (calls w) ++ [("show_inputs", true); ("show_outputs", true)] ∧
  Gtk.active (switch_inputs (general w'))
  = default true (config (indicator w) !! "show_inputs") ∧
  Gtk.active (switch_outputs (general w'))
  = default true (config (indicator w) !! "show_outputs").
Proof.
  destruct (general_initialise_spec w) as (Ha & Ho & Hr & _). by split_and!.
Qed.

(** C6: [DevicesPage.initialise] appends to the devices list box one row
    per entry of [indicator.cards], in iteration order; the row of a
    card carries that card and shows its display name in bold above its
    raw name.  On the freshly built dialog these are all the rows. *)
Theorem devices_initialise_adds_card_rows :
  (∀ w : World,
      listbox_devices (devices (DevicesPage.initialise w))
      = listbox_devices (devices w)
        ++ (DevicesPage.device_row ∘ snd <$> cards (indicator w))) ∧
  (∀ card : Card.t,
      Gtk.data (DevicesPage.device_row card) = card ∧
      Gtk.child (DevicesPage.device_row card)
      = [Gtk.Image "yast_soundcard";
         Gtk.Text (utils.lbl_bold (Card_get_display_name card));
         Gtk.Text {| Gtk.label := Card.name card; Gtk.markup := Gtk.Plain |}]) ∧
  (∀ ind : Indicator,
      listbox_devices (devices (DevicesPage.on_activate (PreferencesDialog.__init__ ind)))
      = (DevicesPage.device_row ∘ snd <$> cards ind)).
Proof.
  split_and!.
  - intros w. pose proof (devices_initialise_spec w) as Hs. cbv zeta in Hs.
    by destruct Hs as (_ & _ & _ & _ & _ & Hl).
  - done.
  - intros ind.
    rewrite devices_on_activate_uninitialised by apply (init_uninitialised ind Devices).
    pose proof (devices_initialise_spec (PreferencesDialog.__init__ ind)) as Hs.
    cbv zeta in Hs. destruct Hs as (_ & _ & _ & _ & _ & Hl).
    rewrite init_listbox_devices, init_indicator in Hl.
    rewrite listbox_devices_with_base. exact Hl.
Qed.

Lemma switch_page_spec (index : nat) (page : page_id) (lbl : Gtk.Label) (w : World) :
  tabs (notebook w) !! index = Some (page, lbl) →
  let w' := navigate (SwitchPage index) w in
  current_page (notebook w') = Some index ∧
  is_initialised (MainNotebook.base page w') = true.
Proof.
  intros Htab. cbn. rewrite Htab. cbn. split; [done|].
  unfold MainNotebook.on_switch_page.
  destruct (page_on_activate_spec page w) as (Hi & _). by destruct page.
Qed.

(** The page the notebook shows is initialised, in every state the
    dialog can reach. *)
Lemma current_page_initialised (ind : Indicator) (es : list event)
    (index : nat) (page : page_id) (lbl : Gtk.Label) :
  current_page (notebook (run es (PreferencesDialog.__init__ ind))) = Some index →
  tabs (notebook (run es (PreferencesDialog.__init__ ind))) !! index = Some (page, lbl) →
  is_initialised (MainNotebook.base page (run es (PreferencesDialog.__init__ ind))) = true.
Proof.
  induction es as [|e es IH] using rev_ind; [done|].
  rewrite run_app. cbn [run fold_left].
  set (w := run es (PreferencesDialog.__init__ ind)) in *.
  destruct (step_spec e w) as (Ht & Hm & _). rewrite Ht.
  destruct e as [[j|sel|sel]|s|c]; cbn [step].
  - cbn. destruct (tabs (notebook w) !! j) as [[page' lbl']|] eqn:Htab; cbn.
    + intros [= <-] Hp. rewrite Htab in Hp. injection Hp as <- <-.
      by destruct (switch_page_spec j page' lbl' w Htab) as [_ Hi];
         cbn in Hi; rewrite Htab in Hi.
    + intros Hc Hp. by apply IH.
  - intros Hc Hp. apply (Hm page), IH; [|done].
    unfold navigate, DevicesPage.on_device_row_selected in Hc.
    match type of Hc with context [DevicesPage.update_dev_props_widgets ?x] =>
      destruct (update_dev_props_widgets_spec x) as [(_ & _ & _ & Hn & _) _] end.
    by rewrite Hn in Hc.
  - intros Hc Hp. apply (Hm page), IH; [|done].
    unfold navigate, DevicesPage.on_port_row_selected in Hc.
    match type of Hc with context [DevicesPage.update_port_props_widgets ?x] =>
      destruct (update_port_props_widgets_frame x) as [(_ & _ & _ & Hn & _) _] end.
    by rewrite Hn in Hc.
  - intros Hc Hp. apply (Hm page), IH; [|done].
    destruct (flip_switch_spec s w) as (_ & Hn & _). by rewrite Hn in Hc.
  - intros Hc Hp. apply (Hm page), IH; [|done].
    destruct (edit_spec c w) as (_ & _ & _ & Hn & _). by rewrite Hn in Hc.
Qed.

Lemma initialise_runs_activation (page : page_id) :
  initialise_runs page (activation_calls page) = 1.
Proof. by destruct page. Qed.

Lemma activations_runs_le (page : page_id) (pages : list page_id) (w : World) :
  (initialise_runs page (calls (activations pages w))
   ≤ S (initialise_runs page (calls w)))%nat.
Proof.
  revert w. induction pages as [|p pages IH]; intros w; [cbn; lia|].
  rewrite activations_cons.
  destruct (page_on_activate_spec p w) as (Hi & _ & _ & _ & Hc & _).
  destruct (decide (p = page)) as [->|Hne].
  - destruct (activations_spec pages _ page Hi) as [_ ->].
    rewrite Hc, initialise_runs_app.
    destruct (is_initialised (MainNotebook.base page w)).
    + change (initialise_runs page []) with 0. lia.
    + rewrite initialise_runs_activation. lia.
  - etrans; [apply IH|]. rewrite Hc, initialise_runs_app.
    assert (initialise_runs page
              (if is_initialised (MainNotebook.base p w) then [] else activation_calls p)
            = 0) as ->; [|lia].
    destruct (is_initialised (MainNotebook.base p w)); [done|].
    by destruct p, page.
Qed.

(** C8: for either page, after one [on_activate] the flag is set and
    [initialise] has run at most once more than before; from then on,
    through any later activations of any pages and any run of events,
    the flag stays set, [initialise] does not run again, and a further
    [on_activate] changes nothing.  On the freshly built dialog no run
    of activations enters a page's [initialise] more than once. *)
Theorem on_activate_idempotent
    (page : page_id) (pages : list page_id) (es : list event) (w : World) :
  let w1 := MainNotebook.page_on_activate page w in
  let w2 := activations pages w1 in
  let w3 := run es w1 in
  (is_initialised (MainNotebook.base page w1) = true ∧
   (initialise_runs page (calls w1) ≤ S (initialise_runs page (calls w)))%nat ∧
   MainNotebook.page_on_activate page w1 = w1) ∧
  (is_initialised (MainNotebook.base page w2) = true ∧
   initialise_runs page (calls w2) = initialise_runs page (calls w1) ∧
   MainNotebook.page_on_activate page w2 = w2) ∧
  (is_initialised (MainNotebook.base page w3) = true ∧
   initialise_runs page (calls w3) = initialise_runs page (calls w1) ∧
   MainNotebook.page_on_activate page w3 = w3) ∧
  (∀ ind, initialise_runs page (calls (activations pages (PreferencesDialog.__init__ ind)))
          ≤ 1)%nat.
Proof.
  cbv zeta.
  destruct (page_on_activate_spec page w) as (Hi1 & _ & _ & _ & Hc1 & _).
  set (w1 := MainNotebook.page_on_activate page w) in *.
  destruct (activations_spec pages w1 page Hi1) as [Hi2 Hr2].
  destruct (run_spec es w1) as (_ & Hm3 & new & Hc3 & _ & Hr3).
  split_and!.
  - done.
  - rewrite Hc1, initialise_runs_app.
    destruct (is_initialised (MainNotebook.base page w)).
    + change (initialise_runs page []) with 0. lia.
    + rewrite initialise_runs_activation. lia.
  - by apply page_on_activate_spec.
  - done.
  - done.
  - by apply page_on_activate_spec.
  - by apply Hm3.
  - rewrite Hc3, initialise_runs_app, Hr3 by done. lia.
  - by apply page_on_activate_spec, Hm3.
  - intros ind. etrans; [apply activations_runs_le|]. by rewrite init_calls.
Qed.

(** C9: while the general page is not initialised its two 'state-set'
    handlers give the world back untouched, so a [set_active] on either
    switch writes nothing; [initialise] and the first [on_activate]
    make exactly the two config reads, no write and no refresh, and
    leave the indicator as it was. *)
Theorem uninitialised_general_page_writes_nothing (w : World) :
  is_initialised (general_base (general w)) = false →
  (∀ widget, GeneralPage.on_switch_inputs_set widget w = w ∧
             GeneralPage.on_switch_outputs_set widget w = w) ∧
  (∀ v, indicator (GeneralPage.switch_inputs_set_active v w) = indicator w ∧
        calls (GeneralPage.switch_inputs_set_active v w) = calls w ∧
        indicator (GeneralPage.switch_outputs_set_active v w) = indicator w ∧
        calls (GeneralPage.switch_outputs_set_active v w) = calls w) ∧
  (indicator (GeneralPage.initialise w) = indicator w ∧
   calls (GeneralPage.initialise w)
   = calls w ++ [Initialise General; ConfigGet "show_inputs" true;
                 ConfigGet "show_outputs" true]) ∧
  (indicator (GeneralPage.on_activate w) = indicator w ∧
   calls (GeneralPage.on_activate w)
   = calls w ++ [Initialise General; ConfigGet "show_inputs" true;
                 ConfigGet "show_outputs" true] ∧
   is_initialised (general_base (general (GeneralPage.on_activate w))) = true).
Proof.
  intros Hinit.
  pose proof (general_initialise_spec w) as Hs. cbv zeta in Hs.
  destruct Hs as (_ & _ & _ & _ & _ & _ & _ & _ & Hu). destruct (Hu Hinit) as [Hi Hc].
  split_and!.
  - intros widget. split.
    + by apply on_switch_inputs_set_uninitialised.
    + by apply on_switch_outputs_set_uninitialised.
  - intros v.
    pose proof (switch_inputs_set_active_spec v w) as Hsi.
    pose proof (switch_outputs_set_active_spec v w) as Hso. cbv zeta in Hsi, Hso.
    destruct Hsi as (_ & _ & _ & _ & _ & _ & _ & _ & _ & Hui).
    destruct Hso as (_ & _ & _ & _ & _ & _ & _ & _ & _ & Huo).
    destruct (Hui Hinit), (Huo Hinit). by split_and!.
  - done.
  - done.
  - by rewrite general_on_activate_uninitialised.
  - by rewrite general_on_activate_uninitialised.
  - by rewrite general_on_activate_uninitialised.
Qed.

End properties.

(** ** The statements at work on the small dialog *)

Lemma toggle_writes_then_refreshes_witness :
  is_initialised
    (general_base (general (@run demo_names [Navigate (SwitchPage 0)] demo_dialog))) = true ∧
  calls (flip_switch ShowInputs (@run demo_names [Navigate (SwitchPage 0)] demo_dialog))
  = [Initialise General; ConfigGet "show_inputs" true; ConfigGet "show_outputs" true;
     ConfigSet "show_inputs" true; OnRefresh].
Proof.
  split; [vm_compute; reflexivity|].
  destruct (toggle_writes_then_refreshes
              (@run demo_names [Navigate (SwitchPage 0)] demo_dialog)
              ltac:(vm_compute; reflexivity)) as [(_ & _ & Hc) _].
  etrans; [exact Hc|]. vm_compute. reflexivity.
Defined.

Lemma uninitialised_general_page_writes_nothing_witness :
  is_initialised (general_base (general demo_dialog)) = false ∧
  calls (GeneralPage.on_activate demo_dialog)
  = calls demo_dialog ++ [Initialise General; ConfigGet "show_inputs" true;
                          ConfigGet "show_outputs" true].
Proof.
  split; [vm_compute; reflexivity|].
  destruct (uninitialised_general_page_writes_nothing demo_dialog
              ltac:(vm_compute; reflexivity)) as (_ & _ & _ & _ & Hc & _).
  exact Hc.
Defined.

(** * Further properties *)

(** ** Selection in a list box *)

Lemma imap_selected_data {A} (g : nat → bool) (box : Gtk.ListBox A) :
  Gtk.data <$> imap (λ j r, {| Gtk.child := Gtk.child r; Gtk.data := Gtk.data r;
                               Gtk.selected := g j |}) box
  = Gtk.data <$> box.
Proof.
  revert g. induction box as [|row box IH]; intros g; [done|].
  cbn. f_equal. apply (IH (g ∘ S)).
Qed.

Lemma select_data {A} (sel : option nat) (box : Gtk.ListBox A) :
  Gtk.data <$> Gtk.select sel box = Gtk.data <$> box.
Proof.
  destruct sel as [i|]; cbn.
  - destruct (box !! i); [|done].
    apply (imap_selected_data (λ j, bool_decide (j = i))).
  - induction box as [|row box IH]; [done|]. cbn. by f_equal.
Qed.

Lemma select_none {A} (box : Gtk.ListBox A) :
  Gtk.get_selected_row (Gtk.select None box) = None.
Proof. induction box as [|row box IH]; [done|]. by cbn. Qed.

Lemma find_imap_selected {A} (g : nat → bool) (box : Gtk.ListBox A)
    (i : nat) (row : Gtk.ListBoxRow A) :
  box !! i = Some row → g i = true → (∀ j, j < i → g j = false) →
  Gtk.get_selected_row
    (imap (λ j r, {| Gtk.child := Gtk.child r; Gtk.data := Gtk.data r;
                     Gtk.selected := g j |}) box)
  = Some {| Gtk.child := Gtk.child row; Gtk.data := Gtk.data row; Gtk.selected := true |}.
Proof.
  revert g i. induction box as [|r box IH]; intros g i Hrow Hi Hlt; [done|].
  unfold Gtk.get_selected_row. cbn.
  destruct i as [|i].
  - injection Hrow as ->. by rewrite Hi.
  - rewrite (Hlt 0) by lia. apply (IH (g ∘ S) i); [done | done |].
    intros j Hj. apply Hlt. lia.
Qed.

Lemma select_some {A} (box : Gtk.ListBox A) (i : nat) (row : Gtk.ListBoxRow A) :
  box !! i = Some row →
  Gtk.get_selected_row (Gtk.select (Some i) box)
  = Some {| Gtk.child := Gtk.child row; Gtk.data := Gtk.data row; Gtk.selected := true |}.
Proof.
  intros Hrow. unfold Gtk.select. rewrite Hrow.
  apply (find_imap_selected (λ j, bool_decide (j = i)) box i row Hrow).
  - by apply bool_decide_eq_true.
  - intros j Hj. apply bool_decide_eq_false. lia.
Qed.

Lemma no_selection_unselected {A} (rows : Gtk.ListBox A) :
  Forall (λ row, Gtk.selected row = false) rows → Gtk.get_selected_row rows = None.
Proof.
  induction 1 as [|row rows Hrow _ IH]; [done|].
  unfold Gtk.get_selected_row in *. cbn. by rewrite Hrow.
Qed.

Lemma get_selected_row_app_unselected {A} (box rows : Gtk.ListBox A) :
  Forall (λ row, Gtk.selected row = false) rows →
  Gtk.get_selected_row (box ++ rows) = Gtk.get_selected_row box.
Proof.
  intros Hrows. induction box as [|row box IH]; cbn.
  - by apply no_selection_unselected.
  - unfold Gtk.get_selected_row in *. cbn. by destruct (Gtk.selected row).
Qed.

Section further.
Context `{!Collaborators}.

(** ** The props widgets of the devices page *)

Lemma get_selected_row_cons_unselected {A} (row : Gtk.ListBoxRow A) (rows : Gtk.ListBox A) :
  Gtk.selected row = false →
  Gtk.get_selected_row (row :: rows) = Gtk.get_selected_row rows.
Proof. intros Hrow. unfold Gtk.get_selected_row. cbn. by rewrite Hrow. Qed.

Lemma port_rows_unselected (ports : list (string * Port.t)) :
  Forall (λ row : Gtk.ListBoxRow Port.t, Gtk.selected row = false)
    (DevicesPage.port_row ∘ snd <$> ports).
Proof. induction ports as [|[name port] ports IH]; by constructor. Qed.

Lemma device_rows_unselected (cs : list (Z * Card.t)) :
  Forall (λ row : Gtk.ListBoxRow Card.t, Gtk.selected row = false)
    (DevicesPage.device_row ∘ snd <$> cs).
Proof. induction cs as [|[idx card] cs IH]; by constructor. Qed.

(** [update_port_props_widgets] on the devices page: what it keeps and
    what it leaves behind. *)
Lemma update_port_props_widgets_devices (w : World) :
  let d := devices w in
  let d' := devices (DevicesPage.update_port_props_widgets w) in
  listbox_devices d' = listbox_devices d ∧ listbox_ports d' = listbox_ports d ∧
  lbl_dev_props_placeholder d' = lbl_dev_props_placeholder d ∧
  box_dev_props d' = box_dev_props d ∧ entry_dev_name d' = entry_dev_name d ∧
  port_props_ok d' ∧
  entry_port_name d'
  = match Gtk.get_selected_row (listbox_ports d) with
    | Some row => {| Gtk.text := Port.display_name (Gtk.data row) |}
    | None => entry_port_name d
    end.
Proof.
  unfold DevicesPage.update_port_props_widgets, port_props_ok, no_selection.
  destruct (Gtk.get_selected_row (listbox_ports (devices w))) as [row|] eqn:Hsel;
    cbn; unfold Gtk.get_selected_row in Hsel; rewrite Hsel; by split_and!.
Qed.

Lemma listbox_ports_remove_devices (w : World) :
  let d := devices w in
  let d' := devices (DevicesPage.listbox_ports_remove 0 w) in
  lbl_dev_props_placeholder d' = lbl_dev_props_placeholder d ∧
  box_dev_props d' = box_dev_props d ∧ entry_dev_name d' = entry_dev_name d ∧
  (port_props_ok d → port_props_ok d').
Proof.
  cbv zeta. unfold DevicesPage.listbox_ports_remove, DevicesPage.on_port_row_selected.
  destruct (listbox_ports (devices w)) as [|row rows] eqn:Hrows; cbn.
  { done. }
  destruct (Gtk.selected row) eqn:Hrow.
  - match goal with |- context [DevicesPage.update_port_props_widgets ?x] =>
      pose proof (update_port_props_widgets_devices x) as Hs end.
    cbv zeta in Hs. destruct Hs as (_ & _ & Hp & Hb & He & Hok & _).
    rewrite Hp, Hb, He. by split_and!.
  - split_and!; [done | done | done |].
    unfold port_props_ok, no_selection. cbn. rewrite Hrows.
    by rewrite (get_selected_row_cons_unselected row rows Hrow).
Qed.

Lemma remove_port_rows_devices (children : list (Gtk.ListBoxRow Port.t)) (w : World) :
  let d := devices w in
  let d' := devices (DevicesPage.remove_port_rows children w) in
  lbl_dev_props_placeholder d' = lbl_dev_props_placeholder d ∧
  box_dev_props d' = box_dev_props d ∧ entry_dev_name d' = entry_dev_name d ∧
  (port_props_ok d → port_props_ok d').
Proof.
  cbv zeta. revert w. induction children as [|row rest IH]; intros w; [done|].
  cbn [DevicesPage.remove_port_rows].
  pose proof (listbox_ports_remove_devices w) as Hs. cbv zeta in Hs.
  destruct Hs as (Hp & Hb & He & Hok).
  destruct (IH (DevicesPage.listbox_ports_remove 0 w)) as (Hp' & Hb' & He' & Hok').
  rewrite Hp', Hb', He', Hp, Hb, He. split_and!; [done | done | done |].
  intros Hd. by apply Hok', Hok.
Qed.

Lemma add_port_rows_port_side (ports : list (string * Port.t)) (w : World) :
  let w' := fold_left
              (λ w '(name, port),
                 with_devices (λ d, DevicesPage.with_listbox_ports d
                                      (Gtk.add (DevicesPage.port_row port))) w)
              ports w in
  lbl_port_props_placeholder (devices w') = lbl_port_props_placeholder (devices w) ∧
  box_port_props (devices w') = box_port_props (devices w) ∧
  entry_port_name (devices w') = entry_port_name (devices w).
Proof.
  revert w. induction ports as [|[name port] ports IH]; intros w; [done|].
  cbn [fold_left].
  match goal with |- context [fold_left _ _ ?x] => destruct (IH x) as (Hp & Hb & He) end.
  by rewrite Hp, Hb, He.
Qed.

(** After [update_dev_props_widgets] the device side is consistent and
    no port row is selected; the port side stays consistent if it
    was. *)
Lemma update_dev_props_widgets_devices (w : World) :
  let d := devices w in
  let d' := devices (DevicesPage.update_dev_props_widgets w) in
  listbox_devices d' = listbox_devices d ∧
  dev_props_ok d' ∧
  Gtk.get_selected_row (listbox_ports d') = None ∧
  (port_props_ok d → port_props_ok d').
Proof.
  cbv zeta.
  pose proof (update_dev_props_widgets_spec w) as Hs. cbv zeta in Hs.
  destruct Hs as [(_ & _ & _ & _ & _ & Hl) Hs].
  assert (Gtk.get_selected_row
            (listbox_ports (devices (DevicesPage.update_dev_props_widgets w))) = None)
    as Hnone.
  { destruct (Gtk.get_selected_row (listbox_devices (devices w))) as [row|].
    - destruct Hs as (_ & _ & -> & _). apply no_selection_unselected, port_rows_unselected.
    - by destruct Hs as (_ & _ & ->). }
  split_and!; [done | | done |].
  - unfold dev_props_ok, no_selection. rewrite Hl.
    destruct (Gtk.get_selected_row (listbox_devices (devices w))) as [row|].
    + destruct Hs as (-> & -> & _). done.
    + destruct Hs as (-> & -> & _). done.
  - intros Hok. unfold port_props_ok, no_selection. rewrite Hnone.
    pose proof (remove_port_rows_devices (Gtk.get_children (listbox_ports (devices w))) w)
      as Hr. cbv zeta in Hr. destruct Hr as (_ & _ & _ & Hok1). specialize (Hok1 Hok).
    pose proof (remove_all_port_rows w) as Hempty.
    unfold port_props_ok, no_selection in Hok1. rewrite Hempty in Hok1.
    unfold DevicesPage.update_dev_props_widgets.
    set (w1 := DevicesPage.remove_port_rows _ w) in *.
    destruct (Gtk.get_selected_row (listbox_devices (devices w))) as [row|].
    + match goal with |- context [fold_left ?f ?l ?x] =>
        destruct (add_port_rows_port_side l x) as (Hp2 & Hb2 & _);
        set (w2 := fold_left f l x) in * end.
      cbn. by rewrite Hp2, Hb2.
    + by cbn.
Qed.

(** [DevicesPage.initialise] always ends with both sides consistent. *)
Lemma devices_initialise_devices (w : World) :
  let d' := devices (DevicesPage.initialise w) in
  dev_props_ok d' ∧ port_props_ok d' ∧
  Gtk.get_selected_row (listbox_ports d') = None.
Proof.
  cbv zeta. unfold DevicesPage.initialise.
  set (w3 := DevicesPage.show_all _).
  pose proof (update_dev_props_widgets_devices w3) as Hd. cbv zeta in Hd.
  destruct Hd as (_ & (Hdp & Hdb) & Hnone & _).
  set (w4 := DevicesPage.update_dev_props_widgets w3) in *.
  pose proof (update_port_props_widgets_devices w4) as Hp. cbv zeta in Hp.
  destruct Hp as (Hld & Hlp & Hp & Hb & _ & Hok & _).
  split_and!; [|done|by rewrite Hlp].
  unfold dev_props_ok. by rewrite Hp, Hb, Hld.
Qed.

Lemma port_rows_data (ports : list (string * Port.t)) :
  Gtk.data <$> (DevicesPage.port_row ∘ snd <$> ports) = snd <$> ports.
Proof. induction ports as [|[name port] ports IH]; [done|]. cbn. by f_equal. Qed.

Lemma device_rows_data (cs : list (Z * Card.t)) :
  Gtk.data <$> (DevicesPage.device_row ∘ snd <$> cs) = snd <$> cs.
Proof. induction cs as [|[idx card] cs IH]; [done|]. cbn. by f_equal. Qed.

Lemma update_dev_props_widgets_ports (w : World) :
  ports_follow_device (devices (DevicesPage.update_dev_props_widgets w)).
Proof.
  unfold ports_follow_device.
  pose proof (update_dev_props_widgets_spec w) as Hs. cbv zeta in Hs.
  destruct Hs as [(_ & _ & _ & _ & _ & Hl) Hs]. rewrite Hl.
  destruct (Gtk.get_selected_row (listbox_devices (devices w))) as [row|].
  - destruct Hs as (_ & _ & -> & _). apply port_rows_data.
  - by destruct Hs as (_ & _ & ->).
Qed.

Lemma update_port_props_widgets_ports (w : World) :
  ports_follow_device (devices w) →
  ports_follow_device (devices (DevicesPage.update_port_props_widgets w)).
Proof.
  unfold ports_follow_device.
  pose proof (update_port_props_widgets_devices w) as Hs. cbv zeta in Hs.
  destruct Hs as (-> & -> & _). done.
Qed.

(** ** What one activation does *)

Lemma general_on_activate_effect (w : World) :
  let w' := GeneralPage.on_activate w in
  devices w' = devices w ∧ indicator w' = indicator w ∧ notebook w' = notebook w ∧
  is_initialised (general_base (general w')) = true ∧
  (is_initialised (general_base (general w)) = true → w' = w) ∧
  (is_initialised (general_base (general w)) = false →
   calls w' = calls w ++ activation_calls General ∧
   Gtk.active (switch_inputs (general w'))
   = default true (config (indicator w) !! "show_inputs") ∧
   Gtk.active (switch_outputs (general w'))
   = default true (config (indicator w) !! "show_outputs")).
Proof.
  cbv zeta.
  destruct (is_initialised (general_base (general w))) eqn:Hinit.
  - assert (GeneralPage.on_activate w = w) as ->.
    { unfold GeneralPage.on_activate, BasePage.on_activate. by rewrite Hinit. }
    by split_and!.
  - rewrite general_on_activate_uninitialised by done.
    pose proof (general_initialise_spec w) as Hs. cbv zeta in Hs.
    destruct Hs as (Ha & Ho & _ & _ & Hd & Hn & _ & _ & Hu).
    destruct (Hu Hinit) as [Hi Hc].
    cbn [devices indicator notebook calls general with_general GeneralPage.with_base
         general_base switch_inputs switch_outputs set_is_initialised is_initialised].
    by split_and!.
Qed.

Lemma devices_on_activate_effect (w : World) :
  let w' := DevicesPage.on_activate w in
  general w' = general w ∧ indicator w' = indicator w ∧ notebook w' = notebook w ∧
  is_initialised (devices_base (devices w')) = true ∧
  (is_initialised (devices_base (devices w)) = true → w' = w) ∧
  (is_initialised (devices_base (devices w)) = false →
   calls w' = calls w ++ activation_calls Devices ∧
   dev_props_ok (devices w') ∧ port_props_ok (devices w') ∧
   ports_follow_device (devices w') ∧
   listbox_devices (devices w')
   = listbox_devices (devices w) ++ (DevicesPage.device_row ∘ snd <$> cards (indicator w))).
Proof.
  cbv zeta.
  destruct (is_initialised (devices_base (devices w))) eqn:Hinit.
  - assert (DevicesPage.on_activate w = w) as ->.
    { unfold DevicesPage.on_activate, BasePage.on_activate. by rewrite Hinit. }
    by split_and!.
  - rewrite devices_on_activate_uninitialised by done.
    pose proof (devices_initialise_spec w) as Hs. cbv zeta in Hs.
    destruct Hs as (Hi & Hc & Hg & Hn & _ & Hl).
    pose proof (devices_initialise_devices w) as Hd. cbv zeta in Hd.
    destruct Hd as (Hdev & Hport & _).
    assert (ports_follow_device (devices (DevicesPage.initialise w))) as Hfollow.
    { unfold DevicesPage.initialise.
      apply update_port_props_widgets_ports, update_dev_props_widgets_ports. }
    revert Hi Hc Hg Hn Hl Hdev Hport Hfollow.
    generalize (DevicesPage.initialise w). intros w1 Hi Hc Hg Hn Hl Hdev Hport Hfollow.
    cbn. split_and!; try done.
Qed.

(** ** What one event does *)

Lemma flip_switch_effect (s : general_switch) (w : World) :
  let w' := flip_switch s w in
  devices w' = devices w ∧ notebook w' = notebook w ∧
  general_base (general w') = general_base (general w) ∧
  cards (indicator w') = cards (indicator w) ∧
  calls w' = calls w ++ step_calls (Toggle s) w ∧
  (is_initialised (general_base (general w)) = false → indicator w' = indicator w) ∧
  (is_initialised (general_base (general w)) = true →
   match s with
   | ShowInputs =>
       switch_outputs (general w') = switch_outputs (general w) ∧
       config (indicator w')
       = <["show_inputs" := Gtk.active (switch_inputs (general w'))]> (config (indicator w))
   | ShowOutputs =>
       switch_inputs (general w') = switch_inputs (general w) ∧
       config (indicator w')
       = <["show_outputs" := Gtk.active (switch_outputs (general w'))]> (config (indicator w))
   end).
Proof.
  cbv zeta. destruct s; cbn [flip_switch step_calls].
  - unfold GeneralPage.switch_inputs_set_active, GeneralPage.on_switch_inputs_set.
    rewrite bool_decide_negb. cbn.
    destruct (is_initialised (general_base (general w))); cbn.
    + rewrite <- (assoc_L (++)). by split_and!.
    + rewrite app_nil_r. by split_and!.
  - unfold GeneralPage.switch_outputs_set_active, GeneralPage.on_switch_outputs_set.
    rewrite bool_decide_negb. cbn.
    destruct (is_initialised (general_base (general w))); cbn.
    + rewrite <- (assoc_L (++)). by split_and!.
    + rewrite app_nil_r. by split_and!.
Qed.

Lemma edit_devices (c : props_control) (w : World) :
  let d := devices w in
  let d' := devices (edit c w) in
  lbl_dev_props_placeholder d' = lbl_dev_props_placeholder d ∧
  box_dev_props d' = box_dev_props d ∧
  lbl_port_props_placeholder d' = lbl_port_props_placeholder d ∧
  box_port_props d' = box_port_props d.
Proof. by destruct c. Qed.

Lemma navigate_switch_page (index : nat) (w : World) :
  navigate (SwitchPage index) w
  = match tabs (notebook w) !! index with
    | None => w
    | Some (page, _) =>
        with_notebook (λ n, {| tabs := tabs n; current_page := Some index |})
          (MainNotebook.page_on_activate page w)
    end.
Proof. cbn. by destruct (tabs (notebook w) !! index) as [[page lbl]|]. Qed.

Lemma step_calls_correct (e : event) (w : World) :
  calls (step e w) = calls w ++ step_calls e w.
Proof.
  destruct e as [[index|sel|sel]|s|c]; cbn [step].
  - rewrite navigate_switch_page. cbn [step_calls].
    destruct (tabs (notebook w) !! index) as [[page lbl]|]; [|by rewrite app_nil_r].
    cbn [calls with_notebook]. by destruct (page_on_activate_spec page w) as (_ & _ & _ & _ & -> & _).
  - destruct (navigate_spec (DeviceRowPicked sel) w) as (Hi & _).
    cbn [step_calls]. rewrite app_nil_r.
    unfold navigate, DevicesPage.on_device_row_selected.
    match goal with |- context [DevicesPage.update_dev_props_widgets ?x] =>
      pose proof (update_dev_props_widgets_spec x) as Hs end.
    cbv zeta in Hs. destruct Hs as [(_ & Hc & _) _]. by rewrite Hc.
  - cbn [step_calls]. rewrite app_nil_r.
    unfold navigate, DevicesPage.on_port_row_selected.
    match goal with |- context [DevicesPage.update_port_props_widgets ?x] =>
      destruct (update_port_props_widgets_frame x) as [(_ & Hc & _) _] end.
    by rewrite Hc.
  - by destruct (flip_switch_effect s w) as (_ & _ & _ & _ & Hc & _).
  - cbn [step_calls]. rewrite app_nil_r. by destruct (edit_spec c w) as (_ & -> & _).
Qed.

(** ** The devices page through a run *)

Lemma run_invariant (P : World → Prop) :
  (∀ e w, P w → P (step e w)) → ∀ es w, P w → P (run es w).
Proof.
  intros Hstep es. induction es as [|e es IH]; intros w Hw; [done|].
  rewrite run_cons. by apply IH, Hstep.
Qed.

Lemma devices_page_inv_activate (page : page_id) (w : World) :
  devices_page_inv w → devices_page_inv (MainNotebook.page_on_activate page w).
Proof.
  intros (Hok & Hfollow & Hrows). destruct page; cbn [MainNotebook.page_on_activate].
  - pose proof (general_on_activate_effect w) as He. cbv zeta in He.
    destruct He as (Hd & Hi & _). unfold devices_page_inv. by rewrite Hd, Hi.
  - pose proof (devices_on_activate_effect w) as He. cbv zeta in He.
    destruct He as (_ & Hi & _ & Hinit' & Hsame & Hfirst).
    destruct (is_initialised (devices_base (devices w))) eqn:Hinit.
    { rewrite Hsame by done. unfold devices_page_inv. by rewrite Hinit. }
    destruct Hfirst as (_ & Hdev & Hport & Hfol & Hl); [done|].
    unfold devices_page_inv. rewrite Hinit', Hi, Hl, fmap_app, Hrows, device_rows_data.
    by split_and!.
Qed.

Lemma devices_page_inv_step (e : event) (w : World) :
  devices_page_inv w → devices_page_inv (step e w).
Proof.
  intros Hinv. destruct e as [[index|sel|sel]|s|c]; cbn [step].
  - rewrite navigate_switch_page.
    destruct (tabs (notebook w) !! index) as [[page lbl]|]; [|done].
    by apply (devices_page_inv_activate page) in Hinv.
  - destruct Hinv as (Hok & Hfollow & Hrows).
    unfold navigate, DevicesPage.on_device_row_selected.
    set (x := with_devices (λ d, DevicesPage.with_listbox_devices d (Gtk.select sel)) w).
    pose proof (update_dev_props_widgets_spec x) as Hs. cbv zeta in Hs.
    destruct Hs as [(Hi & _ & _ & _ & Hb & _) _].
    pose proof (update_dev_props_widgets_devices x) as Hd. cbv zeta in Hd.
    destruct Hd as (Hl & Hdev & _ & Hport).
    unfold devices_page_inv. rewrite Hb, Hi, Hl. split_and!.
    + intros Hinit. split; [done|]. apply Hport. by apply Hok.
    + apply update_dev_props_widgets_ports.
    + unfold x. cbn. by rewrite select_data.
  - destruct Hinv as (Hok & Hfollow & Hrows).
    unfold navigate, DevicesPage.on_port_row_selected.
    set (x := with_devices (λ d, DevicesPage.with_listbox_ports d (Gtk.select sel)) w).
    destruct (update_port_props_widgets_frame x) as [(Hi & _ & _ & _ & Hb & _) _].
    pose proof (update_port_props_widgets_devices x) as Hd. cbv zeta in Hd.
    destruct Hd as (Hld & Hlp & Hp & Hbx & _ & Hport & _).
    unfold devices_page_inv. rewrite Hb, Hi, Hld. split_and!.
    + intros Hinit. split; [|done]. unfold dev_props_ok. rewrite Hp, Hbx, Hld.
      by apply Hok.
    + apply update_port_props_widgets_ports. unfold ports_follow_device, x. cbn.
      by rewrite select_data.
    + done.
  - destruct (flip_switch_effect s w) as (Hd & _ & _ & Hc & _).
    unfold devices_page_inv. by rewrite Hd, Hc.
  - destruct Hinv as (Hok & Hfollow & Hrows).
    destruct (edit_spec c w) as (Hi & _ & _ & _ & Hb & Hld & Hlp).
    pose proof (edit_devices c w) as Hv. cbv zeta in Hv. destruct Hv as (Hp & Hbx & Hpp & Hbp).
    unfold devices_page_inv, dev_props_ok, port_props_ok, ports_follow_device.
    rewrite Hi, Hb, Hld, Hlp, Hp, Hbx, Hpp, Hbp. by split_and!.
Qed.

Lemma devices_page_inv_init (ind : Indicator) :
  devices_page_inv (PreferencesDialog.__init__ ind).
Proof.
  unfold devices_page_inv.
  rewrite (init_uninitialised ind Devices : is_initialised (devices_base _) = false).
  by split_and!.
Qed.

Lemma devices_page_inv_run (ind : Indicator) (es : list event) :
  devices_page_inv (run es (PreferencesDialog.__init__ ind)).
Proof.
  apply (run_invariant devices_page_inv); [apply devices_page_inv_step|].
  apply devices_page_inv_init.
Qed.

(** ** The general page through a run *)

Lemma step_cards (e : event) (w : World) :
  cards (indicator (step e w)) = cards (indicator w).
Proof.
  destruct e as [n|s|c]; cbn [step].
  - by destruct (navigate_spec n w) as (-> & _).
  - by destruct (flip_switch_effect s w) as (_ & _ & _ & -> & _).
  - by destruct (edit_spec c w) as (-> & _).
Qed.

Lemma run_cards (es : list event) (w : World) :
  cards (indicator (run es w)) = cards (indicator w).
Proof.
  apply (run_invariant (λ w', cards (indicator w') = cards (indicator w))); [|done].
  intros e w' Hw'. by rewrite step_cards.
Qed.

Lemma switches_follow_config_step (e : event) (w : World) :
  (is_initialised (general_base (general w)) = true → switches_follow_config w) →
  is_initialised (general_base (general (step e w))) = true →
  switches_follow_config (step e w).
Proof.
  intros Hinv. destruct e as [[index|sel|sel]|s|c]; cbn [step].
  - rewrite navigate_switch_page.
    destruct (tabs (notebook w) !! index) as [[[] lbl]|]; [| |done];
      cbn [MainNotebook.page_on_activate].
    + pose proof (general_on_activate_effect w) as He. cbv zeta in He.
      destruct He as (_ & Hi & _ & _ & Hsame & Hfirst).
      destruct (is_initialised (general_base (general w))) eqn:Hinit.
      { rewrite Hsame by done. intros _. by apply Hinv. }
      destruct Hfirst as (_ & Ha & Ho); [done|]. intros _.
      unfold switches_follow_config. cbn [general indicator with_notebook]. by rewrite Hi.
    + pose proof (devices_on_activate_effect w) as He. cbv zeta in He.
      destruct He as (Hg & Hi & _).
      unfold switches_follow_config. cbn [general indicator with_notebook].
      rewrite Hg, Hi. done.
  - destruct (navigate_spec (DeviceRowPicked sel) w) as (Hi & _).
    unfold switches_follow_config. rewrite Hi. clear Hi.
    unfold navigate, DevicesPage.on_device_row_selected.
    match goal with |- context [DevicesPage.update_dev_props_widgets ?x] =>
      pose proof (update_dev_props_widgets_spec x) as Hs end.
    cbv zeta in Hs. destruct Hs as [(_ & _ & Hg & _) _]. rewrite Hg. done.
  - destruct (navigate_spec (PortRowPicked sel) w) as (Hi & _).
    unfold switches_follow_config. rewrite Hi. clear Hi.
    unfold navigate, DevicesPage.on_port_row_selected.
    match goal with |- context [DevicesPage.update_port_props_widgets ?x] =>
      destruct (update_port_props_widgets_frame x) as [(_ & _ & Hg & _) _] end.
    rewrite Hg. done.
  - destruct (flip_switch_effect s w) as (_ & _ & Hb & _ & _ & _ & Hon).
    rewrite Hb. intros Hinit. destruct (Hinv Hinit) as [Ha Ho].
    specialize (Hon Hinit). unfold switches_follow_config.
    destruct s; destruct Hon as [Hother ->]; rewrite Hother.
    + by rewrite lookup_insert_eq, lookup_insert_ne.
    + by rewrite lookup_insert_eq, lookup_insert_ne.
  - destruct (edit_spec c w) as (Hi & _ & Hg & _).
    unfold switches_follow_config. rewrite Hi, Hg. done.
Qed.

Lemma switches_follow_config_run (ind : Indicator) (es : list event) :
  is_initialised (general_base (general (run es (PreferencesDialog.__init__ ind)))) = true →
  switches_follow_config (run es (PreferencesDialog.__init__ ind)).
Proof.
  apply (run_invariant
           (λ w, is_initialised (general_base (general w)) = true → switches_follow_config w)).
  - intros e w. apply switches_follow_config_step.
  - by rewrite (init_uninitialised ind General : is_initialised (general_base _) = false).
Qed.

(** ** Which pages get initialised *)

Lemma init_tabs (ind : Indicator) :
  tabs (notebook (PreferencesDialog.__init__ ind))
  = [(General, {| Gtk.label := gettext "_General"; Gtk.markup := Gtk.Mnemonic |});
     (Devices, {| Gtk.label := gettext "_Devices"; Gtk.markup := Gtk.Mnemonic |})].
Proof. reflexivity. Qed.

Lemma base_with_notebook (page : page_id) (f : MainNotebook → MainNotebook) (w : World) :
  MainNotebook.base page (with_notebook f w) = MainNotebook.base page w.
Proof. by destruct page. Qed.

Lemma step_base_other (page : page_id) (e : event) (w : World) :
  (∀ index, e ≠ Navigate (SwitchPage index)) →
  MainNotebook.base page (step e w) = MainNotebook.base page w.
Proof.
  intros Hne. destruct e as [[index|sel|sel]|s|c]; cbn [step].
  - by destruct (Hne index).
  - unfold navigate, DevicesPage.on_device_row_selected.
    match goal with |- context [DevicesPage.update_dev_props_widgets ?x] =>
      pose proof (update_dev_props_widgets_spec x) as Hs end.
    cbv zeta in Hs. destruct Hs as [(_ & _ & Hg & _ & Hb & _) _].
    destruct page; cbn [MainNotebook.base]; by rewrite ?Hg, ?Hb.
  - unfold navigate, DevicesPage.on_port_row_selected.
    match goal with |- context [DevicesPage.update_port_props_widgets ?x] =>
      destruct (update_port_props_widgets_frame x) as [(_ & _ & Hg & _ & Hb & _) _] end.
    destruct page; cbn [MainNotebook.base]; by rewrite ?Hg, ?Hb.
  - by destruct (flip_switch_spec s w) as (_ & _ & -> & _).
  - destruct (edit_spec c w) as (_ & _ & Hg & _ & Hb & _).
    destruct page; cbn [MainNotebook.base]; by rewrite ?Hg, ?Hb.
Qed.

Lemma page_on_activate_other (page q : page_id) (w : World) :
  q ≠ page →
  MainNotebook.base q (MainNotebook.page_on_activate page w) = MainNotebook.base q w.
Proof.
  intros Hne. destruct page, q; try done; cbn [MainNotebook.page_on_activate MainNotebook.base].
  - pose proof (general_on_activate_effect w) as He. cbv zeta in He.
    by destruct He as (-> & _).
  - pose proof (devices_on_activate_effect w) as He. cbv zeta in He.
    by destruct He as (-> & _).
Qed.

(** With the two tabs in place, an event sets a page's flag exactly when
    it is the switch to that page's tab, and never clears it. *)
Lemma step_is_initialised (page : page_id) (e : event) (w : World) (l1 l2 : Gtk.Label) :
  tabs (notebook w) = [(General, l1); (Devices, l2)] →
  is_initialised (MainNotebook.base page (step e w))
  = is_initialised (MainNotebook.base page w)
    || bool_decide (e = Navigate (SwitchPage (tab_index page))).
Proof.
  intros Htabs.
  assert (∀ e', (∀ index, e' ≠ Navigate (SwitchPage index)) →
                is_initialised (MainNotebook.base page (step e' w))
                = is_initialised (MainNotebook.base page w)
                  || bool_decide (e' = Navigate (SwitchPage (tab_index page)))) as Hother.
  { intros e' Hne. rewrite step_base_other by done.
    rewrite bool_decide_eq_false_2; [by rewrite orb_false_r | apply Hne]. }
  destruct e as [[index|sel|sel]|s|c]; [|by apply Hother..].
  - cbn [step]. rewrite navigate_switch_page, Htabs.
    destruct index as [|[|index]]; cbn [lookup list_lookup]; rewrite ?base_with_notebook.
    + destruct page.
      * destruct (page_on_activate_spec General w) as (-> & _).
        by rewrite orb_true_r.
      * rewrite page_on_activate_other by done. by rewrite orb_false_r.
    + destruct page.
      * rewrite page_on_activate_other by done. by rewrite orb_false_r.
      * destruct (page_on_activate_spec Devices w) as (-> & _).
        by rewrite orb_true_r.
    + cbn. rewrite bool_decide_eq_false_2; [by rewrite orb_false_r|].
      by destruct page.
Qed.

Lemma step_initialise_runs (page : page_id) (e : event) (w : World) (l1 l2 : Gtk.Label) :
  tabs (notebook w) = [(General, l1); (Devices, l2)] →
  initialise_runs page (step_calls e w)
  = if is_initialised (MainNotebook.base page w) then 0
    else if bool_decide (e = Navigate (SwitchPage (tab_index page))) then 1 else 0.
Proof.
  intros Htabs. destruct e as [[index|sel|sel]|s|c]; cbn [step_calls].
  - rewrite Htabs. destruct index as [|[|index]]; cbn [lookup list_lookup].
    + destruct page; cbn [MainNotebook.base tab_index].
      * by destruct (is_initialised (general_base (general w))).
      * by destruct (is_initialised (general_base (general w))),
                    (is_initialised (devices_base (devices w))).
    + destruct page; cbn [MainNotebook.base tab_index].
      * by destruct (is_initialised (general_base (general w))),
                    (is_initialised (devices_base (devices w))).
      * by destruct (is_initialised (devices_base (devices w))).
    + cbn. by destruct page, (is_initialised _).
  - by destruct (is_initialised _).
  - by destruct (is_initialised _).
  - destruct (is_initialised (MainNotebook.base page w)),
             (is_initialised (general_base (general w))), s; done.
  - by destruct (is_initialised _).
Qed.

(** ** Refreshes and writes in the log *)

Lemma refresh_follows_write_weaken (b : bool) (l : list call) :
  refresh_follows_write false l = true → refresh_follows_write b l = true.
Proof. by destruct l as [|[] l], b. Qed.

Lemma refresh_follows_write_app (b : bool) (l1 l2 : list call) :
  refresh_follows_write b l1 = true → refresh_follows_write false l2 = true →
  refresh_follows_write b (l1 ++ l2) = true.
Proof.
  revert b. induction l1 as [|c l1 IH]; intros b H1 H2.
  { by apply refresh_follows_write_weaken. }
  destruct c; cbn in *; try by apply IH.
  apply andb_true_iff in H1 as [-> H1]. by apply IH.
Qed.

Lemma refreshes_app (l1 l2 : list call) :
  refreshes (l1 ++ l2) = refreshes l1 + refreshes l2.
Proof. unfold refreshes. by rewrite filter_app, length_app. Qed.

Lemma step_calls_refreshes (e : event) (w : World) :
  refresh_follows_write false (step_calls e w) = true ∧
  refreshes (step_calls e w) = length (config_writes (step_calls e w)).
Proof.
  destruct e as [[index|sel|sel]|s|c]; cbn [step_calls]; try done.
  - destruct (tabs (notebook w) !! index) as [[page lbl]|]; [|done].
    by destruct (is_initialised _), page.
  - by destruct (is_initialised _), s.
Qed.

Lemma navigate_calls_quiet (n : navigation) (w : World) :
  config_writes (step_calls (Navigate n) w) = [] ∧
  refreshes (step_calls (Navigate n) w) = 0.
Proof.
  destruct n as [index|sel|sel]; cbn [step_calls]; try done.
  destruct (tabs (notebook w) !! index) as [[page lbl]|]; [|done].
  by destruct (is_initialised _), page.
Qed.

Lemma bool_decide_elem_of_snoc (x e : event) (es : list event) :
  bool_decide (x ∈ es ++ [e]) = bool_decide (x ∈ es) || bool_decide (e = x).
Proof.
  apply eq_true_iff_eq. rewrite orb_true_iff, !bool_decide_eq_true.
  rewrite elem_of_app, list_elem_of_singleton.
  split; (intros [Hin|Heq]; [by left | by right]).
Qed.

(** ** Further statements about the dialog *)

(** X1: whenever the devices page is activated for the first time, it
    comes up with one row per card, none of them selected, an empty ports
    list, both placeholders visible and both props boxes hidden. *)
Theorem devices_first_activation (ind : Indicator) (es : list event) :
  is_initialised (devices_base (devices (run es (PreferencesDialog.__init__ ind)))) = false →
  let d := devices (DevicesPage.on_activate (run es (PreferencesDialog.__init__ ind))) in
  Gtk.data <$> listbox_devices d = snd <$> cards ind ∧
  Gtk.get_selected_row (listbox_devices d) = None ∧
  listbox_ports d = [] ∧
  Gtk.visible (lbl_dev_props_placeholder d) = true ∧
  Gtk.visible (box_dev_props d) = false ∧
  Gtk.visible (lbl_port_props_placeholder d) = true ∧
  Gtk.visible (box_port_props d) = false.
Proof.
  intros Hinit. cbv zeta.
  destruct (devices_page_inv_run ind es) as (_ & _ & Hrows).
  rewrite Hinit in Hrows. apply fmap_nil_inv in Hrows.
  pose proof (run_cards es (PreferencesDialog.__init__ ind)) as Hcards.
  rewrite init_indicator in Hcards.
  pose proof (devices_on_activate_effect (run es (PreferencesDialog.__init__ ind))) as He.
  cbv zeta in He. destruct He as (_ & _ & _ & _ & _ & Hfirst).
  destruct (Hfirst Hinit) as (_ & (Hp & Hb) & (Hpp & Hpb) & Hfollow & Hl).
  rewrite Hrows, Hcards in Hl. cbn [app] in Hl.
  assert (Gtk.get_selected_row
            (listbox_devices
               (devices (DevicesPage.on_activate (run es (PreferencesDialog.__init__ ind)))))
          = None) as Hnone.
  { rewrite Hl. apply no_selection_unselected, device_rows_unselected. }
  unfold ports_follow_device in Hfollow. rewrite Hnone in Hfollow.
  apply fmap_nil_inv in Hfollow.
  unfold no_selection in *. rewrite Hnone in Hp, Hb. rewrite Hfollow in Hpp, Hpb.
  split_and!; try done. rewrite Hl. apply device_rows_data.
Qed.

(** X2: picking an existing device row selects it, hides the device
    placeholder and shows the device props box, puts the card's
    [display_name] in the name entry whatever was typed there, fills the
    ports list box with one row per port of that card, and leaves no
    port row selected. *)
Theorem device_pick_shows_card (w : World) (i : nat) (row : Gtk.ListBoxRow Card.t) :
  listbox_devices (devices w) !! i = Some row →
  let d := devices (navigate (DeviceRowPicked (Some i)) w) in
  Gtk.data <$> Gtk.get_selected_row (listbox_devices d) = Some (Gtk.data row) ∧
  Gtk.visible (lbl_dev_props_placeholder d) = false ∧
  Gtk.visible (box_dev_props d) = true ∧
  entry_dev_name d = {| Gtk.text := Card.display_name (Gtk.data row) |} ∧
  listbox_ports d = (DevicesPage.port_row ∘ snd <$> Card.ports (Gtk.data row)) ∧
  Gtk.get_selected_row (listbox_ports d) = None.
Proof.
  intros Hrow. cbv zeta. unfold navigate, DevicesPage.on_device_row_selected.
  set (x := with_devices (λ d, DevicesPage.with_listbox_devices d (Gtk.select (Some i))) w).
  assert (Gtk.get_selected_row (listbox_devices (devices x))
          = Some {| Gtk.child := Gtk.child row; Gtk.data := Gtk.data row;
                    Gtk.selected := true |}) as Hsel.
  { unfold x. cbn [devices with_devices listbox_devices DevicesPage.with_listbox_devices].
    by apply select_some. }
  pose proof (update_dev_props_widgets_spec x) as Hs. cbv zeta in Hs.
  destruct Hs as [(_ & _ & _ & _ & _ & Hl) Hs]. rewrite Hsel in Hs.
  destruct Hs as (Hp & Hb & Hports & Hname).
  pose proof (update_dev_props_widgets_devices x) as Hd. cbv zeta in Hd.
  destruct Hd as (_ & _ & Hnone & _).
  rewrite Hl, Hsel, Hp, Hb. by split_and!.
Qed.

(** X3: picking an existing port row selects it, hides the port
    placeholder and shows the port props box, and puts the port's
    [display_name] in the port name entry whatever was typed there; the
    device placeholder, props box and name entry are left alone. *)
Theorem port_pick_shows_port (w : World) (i : nat) (row : Gtk.ListBoxRow Port.t) :
  listbox_ports (devices w) !! i = Some row →
  let d := devices (navigate (PortRowPicked (Some i)) w) in
  Gtk.data <$> Gtk.get_selected_row (listbox_ports d) = Some (Gtk.data row) ∧
  Gtk.visible (lbl_port_props_placeholder d) = false ∧
  Gtk.visible (box_port_props d) = true ∧
  entry_port_name d = {| Gtk.text := Port.display_name (Gtk.data row) |} ∧
  lbl_dev_props_placeholder d = lbl_dev_props_placeholder (devices w) ∧
  box_dev_props d = box_dev_props (devices w) ∧
  entry_dev_name d = entry_dev_name (devices w).
Proof.
  intros Hrow. cbv zeta. unfold navigate, DevicesPage.on_port_row_selected.
  set (x := with_devices (λ d, DevicesPage.with_listbox_ports d (Gtk.select (Some i))) w).
  assert (Gtk.get_selected_row (listbox_ports (devices x))
          = Some {| Gtk.child := Gtk.child row; Gtk.data := Gtk.data row;
                    Gtk.selected := true |}) as Hsel.
  { unfold x. cbn [devices with_devices listbox_ports DevicesPage.with_listbox_ports].
    by apply select_some. }
  pose proof (update_port_props_widgets_devices x) as Hs. cbv zeta in Hs.
  destruct Hs as (_ & Hl & Hp & Hb & He & (Hpp & Hpb) & Hname).
  unfold no_selection in Hpp, Hpb. rewrite Hl, Hsel in Hpp, Hpb. rewrite Hsel in Hname.
  rewrite Hl, Hsel, Hp, Hb, He. by split_and!.
Qed.

(** X4: clearing the device selection brings the device placeholder
    back, hides the device props box and empties the ports list box;
    clearing the port selection brings the port placeholder back, hides
    the port props box and keeps the text of the port name entry. *)
Theorem clearing_selection_shows_placeholder (w : World) :
  (let d := devices (navigate (DeviceRowPicked None) w) in
   Gtk.get_selected_row (listbox_devices d) = None ∧
   Gtk.visible (lbl_dev_props_placeholder d) = true ∧
   Gtk.visible (box_dev_props d) = false ∧
   listbox_ports d = []) ∧
  (let d := devices (navigate (PortRowPicked None) w) in
   Gtk.get_selected_row (listbox_ports d) = None ∧
   Gtk.visible (lbl_port_props_placeholder d) = true ∧
   Gtk.visible (box_port_props d) = false ∧
   entry_port_name d = entry_port_name (devices w)).
Proof.
  cbv zeta. split.
  - unfold navigate, DevicesPage.on_device_row_selected.
    set (x := with_devices (λ d, DevicesPage.with_listbox_devices d (Gtk.select None)) w).
    assert (Gtk.get_selected_row (listbox_devices (devices x)) = None) as Hsel.
    { unfold x. cbn [devices with_devices listbox_devices DevicesPage.with_listbox_devices].
      apply select_none. }
    pose proof (update_dev_props_widgets_spec x) as Hs. cbv zeta in Hs.
    destruct Hs as [(_ & _ & _ & _ & _ & Hl) Hs]. rewrite Hsel in Hs.
    destruct Hs as (Hp & Hb & Hports). rewrite Hl, Hsel, Hp, Hb. by split_and!.
  - unfold navigate, DevicesPage.on_port_row_selected.
    set (x := with_devices (λ d, DevicesPage.with_listbox_ports d (Gtk.select None)) w).
    assert (Gtk.get_selected_row (listbox_ports (devices x)) = None) as Hsel.
    { unfold x. cbn [devices with_devices listbox_ports DevicesPage.with_listbox_ports].
      apply select_none. }
    pose proof (update_port_props_widgets_devices x) as Hs. cbv zeta in Hs.
    destruct Hs as (_ & Hl & _ & _ & _ & (Hpp & Hpb) & Hname).
    unfold no_selection in Hpp, Hpb. rewrite Hl, Hsel in Hpp, Hpb. rewrite Hsel in Hname.
    rewrite Hl, Hsel. by split_and!.
Qed.

(** X5: in every state the dialog reaches with the devices page
    initialised, the device placeholder is visible exactly when no device
    row is selected and the device props box exactly when one is. *)
Theorem device_props_always_consistent (ind : Indicator) (es : list event) :
  is_initialised (devices_base (devices (run es (PreferencesDialog.__init__ ind)))) = true →
  dev_props_ok (devices (run es (PreferencesDialog.__init__ ind))).
Proof.
  intros Hinit. destruct (devices_page_inv_run ind es) as (Hok & _). by apply Hok.
Qed.

(** X6: in every such state the port placeholder is visible exactly when
    no port row is selected and the port props box exactly when one is;
    in particular a change of device, which rebuilds the ports list box,
    never leaves the port props box up without a selected port. *)
Theorem port_props_always_consistent (ind : Indicator) (es : list event) :
  is_initialised (devices_base (devices (run es (PreferencesDialog.__init__ ind)))) = true →
  port_props_ok (devices (run es (PreferencesDialog.__init__ ind))).
Proof.
  intros Hinit. destruct (devices_page_inv_run ind es) as (Hok & _). by apply Hok.
Qed.

(** X7: the devices list box never holds anything but the cards of the
    indicator: none before the devices page is initialised, and from then
    on exactly one row per card, in order, with no row ever added twice
    or dropped. *)
Theorem device_rows_mirror_cards (ind : Indicator) (es : list event) :
  Gtk.data <$> listbox_devices (devices (run es (PreferencesDialog.__init__ ind)))
  = if is_initialised (devices_base (devices (run es (PreferencesDialog.__init__ ind))))
    then snd <$> cards ind else [].
Proof.
  destruct (devices_page_inv_run ind es) as (_ & _ & Hrows).
  by rewrite run_cards, init_indicator in Hrows.
Qed.

(** X8: in every state the dialog reaches, the ports list box holds the
    ports of the selected device row's card, in order, and is empty when
    no device row is selected. *)
Theorem port_rows_mirror_selected_card (ind : Indicator) (es : list event) :
  ports_follow_device (devices (run es (PreferencesDialog.__init__ ind))).
Proof. by destruct (devices_page_inv_run ind es) as (_ & Hfollow & _). Qed.

(** X9: once the general page is initialised, each of its switches shows
    what the config holds under its key ([True] for an unset key), in
    every state the dialog reaches. *)
Theorem switches_mirror_config (ind : Indicator) (es : list event) :
  is_initialised (general_base (general (run es (PreferencesDialog.__init__ ind)))) = true →
  switches_follow_config (run es (PreferencesDialog.__init__ ind)).
Proof. apply switches_follow_config_run. Qed.

Lemma page_flag_and_runs (ind : Indicator) (es : list event) (page : page_id) :
  is_initialised (MainNotebook.base page (run es (PreferencesDialog.__init__ ind)))
  = bool_decide (Navigate (SwitchPage (tab_index page)) ∈ es) ∧
  initialise_runs page (calls (run es (PreferencesDialog.__init__ ind)))
  = if bool_decide (Navigate (SwitchPage (tab_index page)) ∈ es) then 1 else 0.
Proof.
  induction es as [|e es [IHi IHr]] using rev_ind.
  { cbn [run fold_left]. by rewrite init_uninitialised, init_calls. }
  rewrite run_app. cbn [run fold_left].
  set (w := run es (PreferencesDialog.__init__ ind)) in *.
  assert (tabs (notebook w) = tabs (notebook (PreferencesDialog.__init__ ind))) as Htabs.
  { by destruct (run_spec es (PreferencesDialog.__init__ ind)) as (Ht & _). }
  rewrite init_tabs in Htabs.
  rewrite (step_is_initialised page e w _ _ Htabs), IHi.
  rewrite step_calls_correct, initialise_runs_app, IHr.
  rewrite (step_initialise_runs page e w _ _ Htabs), IHi.
  rewrite bool_decide_elem_of_snoc.
  split; [done|].
  by destruct (bool_decide (Navigate (SwitchPage (tab_index page)) ∈ es)),
              (bool_decide (e = Navigate (SwitchPage (tab_index page)))).
Qed.

(** X10: a page of the freshly built dialog is initialised exactly when
    the run contains a switch to its tab, and then its [initialise] has
    been entered exactly once; a page that was never switched to has not
    been initialised at all. *)
Theorem page_initialised_iff_switched (ind : Indicator) (es : list event) (page : page_id) :
  is_initialised (MainNotebook.base page (run es (PreferencesDialog.__init__ ind)))
  = bool_decide (Navigate (SwitchPage (tab_index page)) ∈ es) ∧
  initialise_runs page (calls (run es (PreferencesDialog.__init__ ind)))
  = if bool_decide (Navigate (SwitchPage (tab_index page)) ∈ es) then 1 else 0.
Proof. apply page_flag_and_runs. Qed.

Lemma initialised_page_ran_once (ind : Indicator) (es : list event) (page : page_id) :
  is_initialised (MainNotebook.base page (run es (PreferencesDialog.__init__ ind))) = true →
  initialise_runs page (calls (run es (PreferencesDialog.__init__ ind))) = 1.
Proof.
  intros Hinit. destruct (page_flag_and_runs ind es page) as [Hi Hr].
  rewrite Hi in Hinit. by rewrite Hr, Hinit.
Qed.

(** What a page's [initialise] leaves behind, in every state the dialog
    reaches: on the general page the switches show the config, on the
    devices page the rows are the indicator's cards. *)
Lemma initialised_page_is_set_up (ind : Indicator) (es : list event) (page : page_id) :
  is_initialised (MainNotebook.base page (run es (PreferencesDialog.__init__ ind))) = true →
  match page with
  | General => switches_follow_config (run es (PreferencesDialog.__init__ ind))
  | Devices =>
      Gtk.data <$> listbox_devices (devices (run es (PreferencesDialog.__init__ ind)))
      = snd <$> cards ind
  end.
Proof.
  destruct page; cbn [MainNotebook.base]; intros Hinit.
  - by apply switches_follow_config_run.
  - destruct (devices_page_inv_run ind es) as (_ & _ & Hrows).
    by rewrite Hinit, run_cards, init_indicator in Hrows.
Qed.

Lemma on_switch_page_runs (page : page_id) (index : nat) (w : World) :
  initialise_runs page (calls (MainNotebook.on_switch_page page index w))
  = initialise_runs page (calls w)
    + if is_initialised (MainNotebook.base page w) then 0 else 1.
Proof.
  unfold MainNotebook.on_switch_page.
  destruct (page_on_activate_spec page w) as (_ & _ & _ & _ & -> & _).
  rewrite initialise_runs_app.
  destruct (is_initialised (MainNotebook.base page w)); [done|].
  by rewrite initialise_runs_activation.
Qed.

(** C7: the 'switch-page' handler is the page's [on_activate], and on a
    page that is not initialised yet it runs the page's [initialise].
    Once the signal for a tab has been handled, that tab is the current
    page, its page is initialised, its [initialise] has run exactly once
    and what [initialise] sets up is there (the switches show the
    config, the device rows are the cards); so whatever page the
    notebook has shown at some point of a run has been initialised, once,
    and stays so. *)
Theorem displayed_pages_are_initialised
    (ind : Indicator) (es1 es2 : list event)
    (index : nat) (page : page_id) (lbl : Gtk.Label) :
  tabs (notebook (run es1 (PreferencesDialog.__init__ ind))) !! index = Some (page, lbl) →
  (∀ w, MainNotebook.on_switch_page page index w = MainNotebook.page_on_activate page w ∧
        initialise_runs page (calls (MainNotebook.on_switch_page page index w))
        = initialise_runs page (calls w)
          + if is_initialised (MainNotebook.base page w) then 0 else 1) ∧
  (current_page (notebook (navigate (SwitchPage index)
                             (run es1 (PreferencesDialog.__init__ ind)))) = Some index ∧
   is_initialised (MainNotebook.base page
                     (navigate (SwitchPage index)
                        (run es1 (PreferencesDialog.__init__ ind)))) = true ∧
   initialise_runs page
     (calls (navigate (SwitchPage index) (run es1 (PreferencesDialog.__init__ ind)))) = 1 ∧
   match page with
   | General =>
       switches_follow_config
         (navigate (SwitchPage index) (run es1 (PreferencesDialog.__init__ ind)))
   | Devices =>
       Gtk.data <$> listbox_devices
                      (devices (navigate (SwitchPage index)
                                  (run es1 (PreferencesDialog.__init__ ind))))
       = snd <$> cards ind
   end) ∧
  (current_page (notebook (run es1 (PreferencesDialog.__init__ ind))) = Some index →
   is_initialised (MainNotebook.base page
                     (run (es1 ++ es2) (PreferencesDialog.__init__ ind))) = true ∧
   initialise_runs page (calls (run (es1 ++ es2) (PreferencesDialog.__init__ ind))) = 1 ∧
   match page with
   | General => switches_follow_config (run (es1 ++ es2) (PreferencesDialog.__init__ ind))
   | Devices =>
       Gtk.data <$> listbox_devices
                      (devices (run (es1 ++ es2) (PreferencesDialog.__init__ ind)))
       = snd <$> cards ind
   end).
Proof.
  intros Htab.
  destruct (switch_page_spec index page lbl _ Htab) as [Hcur Hinit].
  split_and!.
  - intros w. split; [done | apply on_switch_page_runs].
  - exact Hcur.
  - exact Hinit.
  - change (navigate (SwitchPage index) (run es1 (PreferencesDialog.__init__ ind)))
      with (run [Navigate (SwitchPage index)] (run es1 (PreferencesDialog.__init__ ind)))
      in *.
    rewrite <- run_app in *. by apply initialised_page_ran_once.
  - change (navigate (SwitchPage index) (run es1 (PreferencesDialog.__init__ ind)))
      with (run [Navigate (SwitchPage index)] (run es1 (PreferencesDialog.__init__ ind)))
      in *.
    rewrite <- run_app in *. by apply initialised_page_is_set_up.
  - intros Hshown.
    assert (is_initialised (MainNotebook.base page
                              (run (es1 ++ es2) (PreferencesDialog.__init__ ind))) = true)
      as Hlater.
    { rewrite run_app.
      destruct (run_spec es2 (run es1 (PreferencesDialog.__init__ ind))) as (_ & Hm & _).
      apply Hm. by apply (current_page_initialised ind es1 index page lbl). }
    split_and!; [done | by apply initialised_page_ran_once
                 | by apply initialised_page_is_set_up].
Qed.

(** X11: the config reads, config writes, refreshes and entries into
    [initialise] an event adds to the log are fixed by the state it
    arrives in: a switch to the tab of an uninitialised page adds that
    page's activation calls; flipping a switch of the initialised
    general page adds the write under its key and the refresh; every
    other event adds nothing.  (Reads of the cards and ports and of
    their [get_display_name()] are no part of the log.) *)
Theorem event_calls (e : event) (w : World) :
  calls (step e w) = calls w ++ step_calls e w.
Proof. apply step_calls_correct. Qed.

(** X12: in the log of any run of the freshly built dialog every call of
    [on_refresh] comes right after a config write, and there are as many
    refreshes as writes. *)
Theorem refreshes_follow_writes (ind : Indicator) (es : list event) :
  refresh_follows_write false (calls (run es (PreferencesDialog.__init__ ind))) = true ∧
  refreshes (calls (run es (PreferencesDialog.__init__ ind)))
  = length (config_writes (calls (run es (PreferencesDialog.__init__ ind)))).
Proof.
  apply (run_invariant
           (λ w, refresh_follows_write false (calls w) = true ∧
                 refreshes (calls w) = length (config_writes (calls w)))).
  - intros e w [Hf Hn]. rewrite step_calls_correct.
    destruct (step_calls_refreshes e w) as [Hf' Hn'].
    split; [by apply refresh_follows_write_app|].
    rewrite refreshes_app, config_writes_app, length_app. lia.
  - by rewrite init_calls.
Qed.

(** X13: page activations and row selections never write to the config
    and never call [on_refresh]: a run of them leaves the whole indicator
    as it was and adds neither kind of call to the log. *)
Theorem navigation_is_quiet (ns : list navigation) (w : World) :
  indicator (run (Navigate <$> ns) w) = indicator w ∧
  config_writes (calls (run (Navigate <$> ns) w)) = config_writes (calls w) ∧
  refreshes (calls (run (Navigate <$> ns) w)) = refreshes (calls w).
Proof.
  split; [apply run_navigate|].
  revert w. induction ns as [|n ns IH]; intros w; [done|].
  rewrite fmap_cons, run_cons. destruct (IH (step (Navigate n) w)) as [-> ->].
  rewrite step_calls_correct, config_writes_app, refreshes_app.
  destruct (navigate_calls_quiet n w) as [-> ->].
  by rewrite app_nil_r, Nat.add_0_r.
Qed.

(** ** The port controls *)

Lemma update_port_props_widgets_controls (w : World) :
  port_controls (devices (DevicesPage.update_port_props_widgets w))
  = port_controls (devices w).
Proof.
  unfold DevicesPage.update_port_props_widgets.
  by destruct (Gtk.get_selected_row (listbox_ports (devices w))).
Qed.

Lemma listbox_ports_remove_controls (w : World) :
  port_controls (devices (DevicesPage.listbox_ports_remove 0 w))
  = port_controls (devices w).
Proof.
  unfold DevicesPage.listbox_ports_remove, DevicesPage.on_port_row_selected.
  destruct (listbox_ports (devices w) !! 0) as [row|]; [|done].
  destruct (Gtk.selected row); [|done].
  by rewrite update_port_props_widgets_controls.
Qed.

Lemma remove_port_rows_controls (children : list (Gtk.ListBoxRow Port.t)) (w : World) :
  port_controls (devices (DevicesPage.remove_port_rows children w))
  = port_controls (devices w).
Proof.
  revert w. induction children as [|row rest IH]; intros w; [done|].
  cbn [DevicesPage.remove_port_rows]. by rewrite IH, listbox_ports_remove_controls.
Qed.

Lemma add_port_rows_controls (ports : list (string * Port.t)) (w : World) :
  port_controls
    (devices (fold_left
                (λ w '(name, port),
                   with_devices (λ d, DevicesPage.with_listbox_ports d
                                        (Gtk.add (DevicesPage.port_row port))) w)
                ports w))
  = port_controls (devices w).
Proof.
  revert w. induction ports as [|[name port] ports IH]; intros w; [done|].
  cbn [fold_left]. by rewrite IH.
Qed.

Lemma add_device_rows_controls (cs : list (Z * Card.t)) (w : World) :
  port_controls
    (devices (fold_left
                (λ w '(idx, card),
                   with_devices (λ d, DevicesPage.with_listbox_devices d
                                        (Gtk.add (DevicesPage.device_row card))) w)
                cs w))
  = port_controls (devices w).
Proof.
  revert w. induction cs as [|[idx card] cs IH]; intros w; [done|].
  cbn [fold_left]. by rewrite IH.
Qed.

Lemma update_dev_props_widgets_controls (w : World) :
  port_controls (devices (DevicesPage.update_dev_props_widgets w))
  = port_controls (devices w).
Proof.
  unfold DevicesPage.update_dev_props_widgets.
  pose proof (remove_port_rows_controls (Gtk.get_children (listbox_ports (devices w))) w)
    as Hr.
  set (w1 := DevicesPage.remove_port_rows _ w) in *.
  destruct (Gtk.get_selected_row (listbox_devices (devices w))) as [row|]; [|done].
  match goal with |- context [fold_left ?f ?l ?x] =>
    pose proof (add_port_rows_controls l x) as Ha; set (w2 := fold_left f l x) in * end.
  etrans; [|exact Hr]. etrans; [|exact Ha]. done.
Qed.

Lemma devices_initialise_controls (w : World) :
  port_controls (devices (DevicesPage.initialise w)) = port_controls (devices w).
Proof.
  unfold DevicesPage.initialise.
  rewrite update_port_props_widgets_controls, update_dev_props_widgets_controls.
  unfold DevicesPage.show_all.
  match goal with |- context [fold_left ?f ?l ?x] =>
    pose proof (add_device_rows_controls l x) as Ha; set (w2 := fold_left f l x) in * end.
  etrans; [|exact Ha]. done.
Qed.

Lemma navigate_controls (n : navigation) (w : World) :
  port_controls (devices (navigate n w)) = port_controls (devices w).
Proof.
  destruct n as [index|sel|sel].
  - rewrite navigate_switch_page.
    destruct (tabs (notebook w) !! index) as [[[] lbl]|]; [| |done];
      cbn [devices with_notebook MainNotebook.page_on_activate].
    + pose proof (general_on_activate_effect w) as He. cbv zeta in He.
      by destruct He as (-> & _).
    + destruct (is_initialised (devices_base (devices w))) eqn:Hinit.
      * pose proof (devices_on_activate_effect w) as He. cbv zeta in He.
        destruct He as (_ & _ & _ & _ & -> & _); done.
      * rewrite devices_on_activate_uninitialised by done.
        etrans; [|apply devices_initialise_controls]. done.
  - unfold navigate, DevicesPage.on_device_row_selected.
    by rewrite update_dev_props_widgets_controls.
  - unfold navigate, DevicesPage.on_port_row_selected.
    by rewrite update_port_props_widgets_controls.
Qed.

(** X14: the two port switches and the profile dropdown are never loaded
    from the selected port: whatever pages are activated and whatever
    device or port rows are picked, they keep the state they had. *)
Theorem port_controls_never_loaded (ns : list navigation) (w : World) :
  port_controls (devices (run (Navigate <$> ns) w)) = port_controls (devices w).
Proof.
  revert w. induction ns as [|n ns IH]; intros w; [done|].
  rewrite fmap_cons, run_cons, IH. cbn [step]. apply navigate_controls.
Qed.

(** ** Running an update twice *)

Lemma world_ext (w w' : World) :
  indicator w = indicator w' → calls w = calls w' → general w = general w' →
  devices w = devices w' → notebook w = notebook w' → w = w'.
Proof. destruct w, w'; cbn. by intros -> -> -> -> ->. Qed.

Lemma devices_page_ext (d d' : DevicesPage) :
  devices_base d = devices_base d' → listbox_devices d = listbox_devices d' →
  lbl_dev_props_placeholder d = lbl_dev_props_placeholder d' →
  box_dev_props d = box_dev_props d' → entry_dev_name d = entry_dev_name d' →
  listbox_ports d = listbox_ports d' →
  port_props_widgets d = port_props_widgets d' → port_controls d = port_controls d' →
  d = d'.
Proof.
  destruct d, d'; unfold port_props_widgets, port_controls; cbn.
  by intros -> -> -> -> -> -> [= -> -> ->] [= -> -> ->].
Qed.

Lemma listbox_ports_remove_unselected (w : World) :
  Forall (λ row, Gtk.selected row = false) (listbox_ports (devices w)) →
  port_props_widgets (devices (DevicesPage.listbox_ports_remove 0 w))
  = port_props_widgets (devices w) ∧
  Forall (λ row, Gtk.selected row = false)
    (listbox_ports (devices (DevicesPage.listbox_ports_remove 0 w))).
Proof.
  intros Hrows. unfold DevicesPage.listbox_ports_remove.
  destruct (listbox_ports (devices w)) as [|row rows] eqn:Heq; cbn.
  { by rewrite Heq. }
  apply Forall_cons in Hrows as [-> Hrows]. cbn. by rewrite Heq.
Qed.

Lemma remove_port_rows_unselected (children : list (Gtk.ListBoxRow Port.t)) (w : World) :
  Forall (λ row, Gtk.selected row = false) (listbox_ports (devices w)) →
  port_props_widgets (devices (DevicesPage.remove_port_rows children w))
  = port_props_widgets (devices w).
Proof.
  revert w. induction children as [|row rest IH]; intros w Hrows; [done|].
  cbn [DevicesPage.remove_port_rows].
  destruct (listbox_ports_remove_unselected w Hrows) as [Hp Hrows'].
  by rewrite IH, Hp.
Qed.

Lemma update_dev_props_widgets_port_widgets (w : World) :
  Forall (λ row, Gtk.selected row = false) (listbox_ports (devices w)) →
  port_props_widgets (devices (DevicesPage.update_dev_props_widgets w))
  = port_props_widgets (devices w).
Proof.
  intros Hrows. unfold DevicesPage.update_dev_props_widgets.
  pose proof (remove_port_rows_unselected
                (Gtk.get_children (listbox_ports (devices w))) w Hrows) as Hr.
  set (w1 := DevicesPage.remove_port_rows _ w) in *.
  destruct (Gtk.get_selected_row (listbox_devices (devices w))) as [row|];
    [|etrans; [|exact Hr]; done].
  match goal with |- context [fold_left ?f ?l ?x] =>
    destruct (add_port_rows_port_side l x) as (Hp2 & Hb2 & He2);
    set (w2 := fold_left f l x) in * end.
  etrans; [|exact Hr]. unfold port_props_widgets. cbn. by rewrite Hp2, Hb2, He2.
Qed.

Lemma update_dev_props_widgets_entry (w : World) :
  Gtk.get_selected_row (listbox_devices (devices w)) = None →
  entry_dev_name (devices (DevicesPage.update_dev_props_widgets w))
  = entry_dev_name (devices w).
Proof.
  intros Hsel. unfold DevicesPage.update_dev_props_widgets. rewrite Hsel.
  pose proof (remove_port_rows_devices (Gtk.get_children (listbox_ports (devices w))) w)
    as Hr. cbv zeta in Hr. destruct Hr as (_ & _ & He & _).
  etrans; [|exact He]. done.
Qed.

Lemma update_dev_props_widgets_unselected (w : World) :
  Forall (λ row, Gtk.selected row = false)
    (listbox_ports (devices (DevicesPage.update_dev_props_widgets w))).
Proof.
  pose proof (update_dev_props_widgets_spec w) as Hs. cbv zeta in Hs.
  destruct Hs as [_ Hs].
  destruct (Gtk.get_selected_row (listbox_devices (devices w))) as [row|].
  - destruct Hs as (_ & _ & -> & _). apply port_rows_unselected.
  - destruct Hs as (_ & _ & ->). constructor.
Qed.

(** X15: both update functions are idempotent: running one again on its
    own result, as a repeated 'row-selected' for an unchanged selection
    does, changes nothing in the dialog. *)
Theorem updates_are_idempotent (w : World) :
  DevicesPage.update_port_props_widgets (DevicesPage.update_port_props_widgets w)
  = DevicesPage.update_port_props_widgets w ∧
  DevicesPage.update_dev_props_widgets (DevicesPage.update_dev_props_widgets w)
  = DevicesPage.update_dev_props_widgets w.
Proof.
  split.
  - unfold DevicesPage.update_port_props_widgets at 1 3.
    pose proof (update_port_props_widgets_devices w) as Hs. cbv zeta in Hs.
    destruct Hs as (_ & Hl & _). rewrite Hl.
    unfold DevicesPage.update_port_props_widgets.
    by destruct (Gtk.get_selected_row (listbox_ports (devices w))).
  - set (w1 := DevicesPage.update_dev_props_widgets w).
    pose proof (update_dev_props_widgets_spec w) as Hs. cbv zeta in Hs.
    destruct Hs as [(_ & _ & _ & _ & _ & Hl) Hs]. fold w1 in Hl, Hs.
    pose proof (update_dev_props_widgets_spec w1) as Hs1. cbv zeta in Hs1.
    destruct Hs1 as [(Hi & Hc & Hg & Hn & Hb & Hl1) Hs1].
    pose proof (update_dev_props_widgets_port_widgets w1
                  (update_dev_props_widgets_unselected w)) as Hport.
    pose proof (update_dev_props_widgets_controls w1) as Hctl.
    pose proof (update_dev_props_widgets_entry w1) as Hentry.
    rewrite Hl in Hs1, Hentry.
    apply world_ext; try done.
    apply devices_page_ext; try done.
    + destruct (Gtk.get_selected_row (listbox_devices (devices w))).
      * destruct Hs as (-> & _), Hs1 as (-> & _). done.
      * destruct Hs as (-> & _), Hs1 as (-> & _). done.
    + destruct (Gtk.get_selected_row (listbox_devices (devices w))).
      * destruct Hs as (_ & -> & _), Hs1 as (_ & -> & _). done.
      * destruct Hs as (_ & -> & _), Hs1 as (_ & -> & _). done.
    + destruct (Gtk.get_selected_row (listbox_devices (devices w))).
      * destruct Hs as (_ & _ & _ & ->), Hs1 as (_ & _ & _ & ->). done.
      * by apply Hentry.
    + destruct (Gtk.get_selected_row (listbox_devices (devices w))).
      * destruct Hs as (_ & _ & -> & _), Hs1 as (_ & _ & -> & _). done.
      * destruct Hs as (_ & _ & ->), Hs1 as (_ & _ & ->). done.
Qed.

(** ** Flipping a switch back *)

(** X16: on an initialised general page, flipping a switch and flipping
    it back leaves the page as it was and the config holding, under the
    switch's key, the position the switch started in and is in again;
    every other key of the config is as before. *)
Theorem flip_back_restores (s : general_switch) (w : World) :
  is_initialised (general_base (general w)) = true →
  let w' := flip_switch s (flip_switch s w) in
  general w' = general w ∧
  config (indicator w')
  = match s with
    | ShowInputs =>
        <["show_inputs" := Gtk.active (switch_inputs (general w))]> (config (indicator w))
    | ShowOutputs =>
        <["show_outputs" := Gtk.active (switch_outputs (general w))]> (config (indicator w))
    end.
Proof.
  intros Hinit. cbv zeta.
  destruct w as [ind cl [[ini t sh] [a] [o]] d n]. cbn in Hinit. subst ini.
  unfold flip_switch, GeneralPage.switch_inputs_set_active,
    GeneralPage.switch_outputs_set_active, GeneralPage.on_switch_inputs_set,
    GeneralPage.on_switch_outputs_set.
  destruct s, a, o; cbn; (split; [done | apply insert_insert_eq]).
Qed.
End further.

(** ** The further statements at work on the small dialog *)

Lemma devices_first_activation_witness :
  is_initialised
    (devices_base (devices (@run demo_names [Toggle ShowInputs] demo_dialog))) = false ∧
  listbox_ports
    (devices (@DevicesPage.on_activate demo_names
                (@run demo_names [Toggle ShowInputs] demo_dialog))) = [] ∧
  Gtk.visible
    (lbl_dev_props_placeholder
       (devices (@DevicesPage.on_activate demo_names
                   (@run demo_names [Toggle ShowInputs] demo_dialog)))) = true.
Proof.
  split; [vm_compute; reflexivity|].
  destruct (@devices_first_activation demo_names demo_indicator [Toggle ShowInputs]
              ltac:(vm_compute; reflexivity)) as (_ & _ & Hl & Hp & _).
  by split.
Defined.

Lemma device_pick_shows_card_witness :
  listbox_devices
    (devices (@run demo_names [Navigate (SwitchPage 1)] demo_dialog)) !! 0
  = Some (@DevicesPage.device_row demo_names demo_card) ∧
  entry_dev_name
    (devices (@navigate demo_names (DeviceRowPicked (Some 0))
                (@run demo_names [Navigate (SwitchPage 1)] demo_dialog)))
  = {| Gtk.text := "Built-in Audio" |}.
Proof.
  split; [vm_compute; reflexivity|].
  destruct (@device_pick_shows_card demo_names
              (@run demo_names [Navigate (SwitchPage 1)] demo_dialog) 0
              (@DevicesPage.device_row demo_names demo_card)
              ltac:(vm_compute; reflexivity)) as (_ & _ & _ & Hname & _).
  exact Hname.
Defined.

Lemma port_pick_shows_port_witness :
  listbox_ports
    (devices (@run demo_names
                [Navigate (SwitchPage 1); Navigate (DeviceRowPicked (Some 0))]
                demo_dialog)) !! 1
  = Some (@DevicesPage.port_row demo_names
            {| Port.name := "analog-input-mic"; Port.display_name := "Microphone" |}) ∧
  entry_port_name
    (devices (@navigate demo_names (PortRowPicked (Some 1))
                (@run demo_names
                   [Navigate (SwitchPage 1); Navigate (DeviceRowPicked (Some 0))]
                   demo_dialog)))
  = {| Gtk.text := "Microphone" |}.
Proof.
  split; [vm_compute; reflexivity|].
  destruct (@port_pick_shows_port demo_names
              (@run demo_names
                 [Navigate (SwitchPage 1); Navigate (DeviceRowPicked (Some 0))]
                 demo_dialog) 1
              (@DevicesPage.port_row demo_names
                 {| Port.name := "analog-input-mic"; Port.display_name := "Microphone" |})
              ltac:(vm_compute; reflexivity)) as (_ & _ & _ & Hname & _).
  exact Hname.
Defined.

Lemma device_props_always_consistent_witness :
  is_initialised
    (devices_base
       (devices (@run demo_names
                   [Navigate (SwitchPage 1); Navigate (DeviceRowPicked (Some 0));
                    Edit (DevNameTyped "Desk"); Navigate (DeviceRowPicked None)]
                   demo_dialog))) = true ∧
  dev_props_ok
    (devices (@run demo_names
                [Navigate (SwitchPage 1); Navigate (DeviceRowPicked (Some 0));
                 Edit (DevNameTyped "Desk"); Navigate (DeviceRowPicked None)]
                demo_dialog)).
Proof.
  split; [vm_compute; reflexivity|].
  apply (@device_props_always_consistent demo_names demo_indicator).
  vm_compute; reflexivity.
Defined.

Lemma port_props_always_consistent_witness :
  is_initialised
    (devices_base
       (devices (@run demo_names
                   [Navigate (SwitchPage 1); Navigate (DeviceRowPicked (Some 0));
                    Navigate (PortRowPicked (Some 1)); Navigate (DeviceRowPicked (Some 0))]
                   demo_dialog))) = true ∧
  port_props_ok
    (devices (@run demo_names
                [Navigate (SwitchPage 1); Navigate (DeviceRowPicked (Some 0));
                 Navigate (PortRowPicked (Some 1)); Navigate (DeviceRowPicked (Some 0))]
                demo_dialog)).
Proof.
  split; [vm_compute; reflexivity|].
  apply (@port_props_always_consistent demo_names demo_indicator).
  vm_compute; reflexivity.
Defined.

Lemma switches_mirror_config_witness :
  is_initialised
    (general_base
       (general (@run demo_names
                   [Toggle ShowOutputs; Navigate (SwitchPage 0); Toggle ShowInputs]
                   demo_dialog))) = true ∧
  switches_follow_config
    (@run demo_names [Toggle ShowOutputs; Navigate (SwitchPage 0); Toggle ShowInputs]
       demo_dialog).
Proof.
  split; [vm_compute; reflexivity|].
  apply (@switches_mirror_config demo_names demo_indicator).
  vm_compute; reflexivity.
Defined.

Lemma flip_back_restores_witness :
  is_initialised
    (general_base (general (@run demo_names [Navigate (SwitchPage 0)] demo_dialog))) = true ∧
  general (flip_switch ShowOutputs
             (flip_switch ShowOutputs (@run demo_names [Navigate (SwitchPage 0)] demo_dialog)))
  = general (@run demo_names [Navigate (SwitchPage 0)] demo_dialog).
Proof.
  split; [vm_compute; reflexivity|].
  destruct (flip_back_restores ShowOutputs
              (@run demo_names [Navigate (SwitchPage 0)] demo_dialog)
              ltac:(vm_compute; reflexivity)) as [Hg _].
  exact Hg.
Defined.

Lemma displayed_pages_are_initialised_witness :
  tabs (notebook (@run demo_names [Navigate (SwitchPage 1)] demo_dialog)) !! 1
  = Some (Devices, {| Gtk.label := "_Devices"; Gtk.markup := Gtk.Mnemonic |}) ∧
  current_page (notebook (@run demo_names [Navigate (SwitchPage 1)] demo_dialog)) = Some 1 ∧
  is_initialised
    (MainNotebook.base Devices
       (@run demo_names
          ([Navigate (SwitchPage 1)] ++ [Toggle ShowInputs; Navigate (DeviceRowPicked (Some 0))])
          demo_dialog)) = true ∧
  initialise_runs Devices
    (calls (@run demo_names
              ([Navigate (SwitchPage 1)]
               ++ [Toggle ShowInputs; Navigate (DeviceRowPicked (Some 0))])
              demo_dialog)) = 1.
Proof.
  split; [vm_compute; reflexivity|]. split; [vm_compute; reflexivity|].
  destruct (@displayed_pages_are_initialised demo_names demo_indicator
              [Navigate (SwitchPage 1)]
              [Toggle ShowInputs; Navigate (DeviceRowPicked (Some 0))]
              1 Devices {| Gtk.label := "_Devices"; Gtk.markup := Gtk.Mnemonic |}
              ltac:(vm_compute; reflexivity)) as (_ & _ & Hd).
  destruct Hd as (Hinit & Hruns & _); [vm_compute; reflexivity|].
  by split.
Defined.
